(** * VideoPlayer (video_player_windows): session controller and surface
      negotiation

    A shallow embedding of [windows/video_player.cpp].  The C++ class
    [VideoPlayer] becomes a record of its members; every member function is a
    computation in a small monad that threads the record, appends to a trace
    of the calls the function makes on its collaborators (media engine, event
    sink, texture registrar, log) and can crash on a null dereference.

    Threads are not modelled: every member function runs to completion before
    the next one starts, which is what the two locks of the class
    ([m_buffer_mutex], [m_compositionLock]) give the functions that take
    them.  Left out are the constructor that resolves a media source from a
    URI, and [SetVolume] and [SetPlaybackSpeed], which only forward a
    floating-point number to the engine. *)

From Stdlib Require Import ZArith List String Bool Lia.
Import ListNotations.
Local Open Scope string_scope.
Local Open Scope list_scope.
Local Open Scope Z_scope.

Set Implicit Arguments.
#[local] Set Warnings "-register-all".

(** ** Machine integers and the casts of the source *)

(** [static_cast<uint32_t>(x)] on an integer value. *)
Definition uint32_cast (z : Z) : Z := z mod 2 ^ 32.

(** [(int32_t)x] and [int] arithmetic: two's complement on 32 bits. *)
Definition int32_cast (z : Z) : Z := (z + 2 ^ 31) mod 2 ^ 32 - 2 ^ 31.

(** [(int64_t)x]: two's complement on 64 bits. *)
Definition int64_cast (z : Z) : Z := (z + 2 ^ 63) mod 2 ^ 64 - 2 ^ 63.

(** [static_cast<float>(n)] for an [int] [n].  The result of the conversion
    is the binary32 number nearest to [n] (ties to even); it is always an
    integer, so the model keeps a [float] member as the integer it holds.
    Integers of magnitude up to [2^24] are represented exactly. *)
Definition float_of_int (n : Z) : Z :=
  let a := Z.abs n in
  if a <? 2 ^ 24 then n
  else
    let e := Z.log2 a - 23 in
    let q := a / 2 ^ e in
    let r := a mod 2 ^ e in
    let half := 2 ^ (e - 1) in
    let q' := if (half <? r) || ((r =? half) && Z.odd q) then q + 1 else q in
    Z.sgn n * (q' * 2 ^ e).

(** [static_cast<uint32_t>(f)] for a [float] holding an integer.  Inside
    [0, 2^32) this is the value itself; outside, the model takes the low 32
    bits, which is what the x64 conversion instruction leaves. *)
Definition uint32_of_float (f : Z) : Z := f mod 2 ^ 32.

(** ** Values sent over the event channel *)

(** [flutter::EncodableValue], restricted to the alternatives the player
    builds.  An [EncodableMap] is kept as the list of its entries in the
    order the source inserts them. *)
Inductive EncodableValue : Type :=
| EString (s : string)
| EInt32 (z : Z)
| EInt64 (z : Z)
| EncodableList (l : list EncodableValue)
| EncodableMap (m : list (EncodableValue * EncodableValue)).

Fixpoint map_find (k : string) (m : list (EncodableValue * EncodableValue))
  : option EncodableValue :=
  match m with
  | [] => None
  | (EString k', v) :: m' => if String.eqb k k' then Some v else map_find k m'
  | _ :: m' => map_find k m'
  end.

(** The value stored under the string key [k] of an [EncodableMap]. *)
Definition field (k : string) (v : EncodableValue) : option EncodableValue :=
  match v with
  | EncodableMap m => map_find k m
  | _ => None
  end.

(** The ["event"] discriminator of an event record. *)
Definition event_name (v : EncodableValue) : option string :=
  match field "event" v with
  | Some (EString n) => Some n
  | _ => None
  end.

Definition is_event (n : string) (v : EncodableValue) : bool :=
  match event_name v with
  | Some n' => String.eqb n n'
  | None => false
  end.

(** ** Collaborators *)

(** [RECT] as filled by [GetWindowRect]. *)
Record RECT : Type := { left : Z; top : Z; right : Z; bottom : Z }.

(** [winrt::Windows::Foundation::Size]: two [float]s, each kept as the
    integer it holds (see [float_of_int]). *)
Record Size : Type := { Width : Z; Height : Z }.

(** [FlutterDesktopGpuSurfaceDescriptor]: the shared handle and the size of
    the buffer it names. *)
Record FlutterDesktopGpuSurfaceDescriptor : Type :=
  { handle : Z; width : Z; height : Z }.

(** A [flutter::EventSink] object, named by a number. *)
Definition EventSink : Type := nat.
Bind Scope nat_scope with EventSink.

(** A [flutter::TextureRegistrar], named by a number. *)
Definition TextureRegistrar : Type := nat.
Bind Scope nat_scope with TextureRegistrar.

(** The [flutter::EventChannel] built by [Init]: its name is the fixed
    prefix followed by the decimal texture id. *)
Record EventChannel : Type :=
  { channel_prefix : string; channel_texture : Z }.

Module media.

(** Modelled from the spec: [media::MediaEngineWrapper::BufferingState] is
    declared in media_engine_wrapper.h, which is not under src/.  The
    player only compares against [HAVE_NOTHING]; the spec names one other
    state, [HAVE_ENOUGH]. *)
Inductive BufferingState : Type := HAVE_NOTHING | HAVE_ENOUGH.

Definition is_HAVE_NOTHING (b : BufferingState) : bool :=
  match b with HAVE_NOTHING => true | HAVE_ENOUGH => false end.

(** The operations of [media::MediaEngineWrapper] the player calls.  The
    wrapper itself is not under src/: it is a parameter of the model, an
    engine state [E] with one function per member function.
    [UpdateSurfaceDescriptor] receives the descriptor by reference and a
    callback; it returns the descriptor it leaves and whether it ran the
    callback. *)
Class MediaEngineWrapper (E : Type) : Type :=
  { SeekTo : Z -> E -> E;
    Pause : E -> E;
    StartPlayingFrom : Z -> E -> E;
    SetLooping : bool -> E -> E;
    OnWindowUpdate : Z -> Z -> E -> E;
    UpdateSurfaceDescriptor :
      Z -> Z -> FlutterDesktopGpuSurfaceDescriptor -> E ->
      E * FlutterDesktopGpuSurfaceDescriptor * bool;
    GetMediaTime : E -> Z;
    GetDuration : E -> Z;
    GetNativeVideoSize : E -> Z * Z;
    GetBufferedRanges : E -> list (Z * Z) }.

End media.

(** What a member function does to the outside, in the order it does it. *)
Inductive Effect : Type :=
| EngineSeekTo (t : Z)
| EnginePause
| EngineStartPlayingFrom (t : Z)
| EngineSetLooping (b : bool)
| EngineOnWindowUpdate (w h : Z)
| EngineUpdateSurfaceDescriptor (w h : Z)
| MarkTextureFrameAvailable (reg : TextureRegistrar) (textureId : Z)
| SinkSuccess (sink : EventSink) (event : EncodableValue)
| LogHr (hr err : Z).

(** The events delivered to sinks, in order. *)
Fixpoint sink_events (tr : list Effect) : list EncodableValue :=
  match tr with
  | [] => []
  | SinkSuccess _ ev :: tr' => ev :: sink_events tr'
  | _ :: tr' => sink_events tr'
  end.

(** How many events named [n] the trace delivers. *)
Definition count_event (n : string) (tr : list Effect) : nat :=
  List.length (List.filter (is_event n) (sink_events tr)).

(** ** The player *)

(** The members of [VideoPlayer] the functions of video_player.cpp read or
    write.  [m_mediaEngineWrapper] is created by the constructor and never
    reset, so it is kept as the engine state itself; the members held by
    pointers that can be null are options. *)
Record VideoPlayer (E : Type) : Type :=
  { m_valid : bool;
    isInitialized : bool;
    _eventSink : option EventSink;
    _eventChannel : option EventChannel;
    _textureRegistry : option TextureRegistrar;
    _textureId : Z;
    m_windowSize : Size;
    m_descriptor : FlutterDesktopGpuSurfaceDescriptor;
    m_mediaEngineWrapper : E }.

Section Player.

Context {E : Type} `{ME : media.MediaEngineWrapper E}.

Abbreviation Player := (VideoPlayer E).

(** *** Member updates *)

Definition with_valid (b : bool) (p : Player) : Player :=
  {| m_valid := b; isInitialized := isInitialized p;
     _eventSink := _eventSink p; _eventChannel := _eventChannel p;
     _textureRegistry := _textureRegistry p; _textureId := _textureId p;
     m_windowSize := m_windowSize p; m_descriptor := m_descriptor p;
     m_mediaEngineWrapper := m_mediaEngineWrapper p |}.

Definition with_isInitialized (b : bool) (p : Player) : Player :=
  {| m_valid := m_valid p; isInitialized := b;
     _eventSink := _eventSink p; _eventChannel := _eventChannel p;
     _textureRegistry := _textureRegistry p; _textureId := _textureId p;
     m_windowSize := m_windowSize p; m_descriptor := m_descriptor p;
     m_mediaEngineWrapper := m_mediaEngineWrapper p |}.

Definition with_eventSink (k : option EventSink) (p : Player) : Player :=
  {| m_valid := m_valid p; isInitialized := isInitialized p;
     _eventSink := k; _eventChannel := _eventChannel p;
     _textureRegistry := _textureRegistry p; _textureId := _textureId p;
     m_windowSize := m_windowSize p; m_descriptor := m_descriptor p;
     m_mediaEngineWrapper := m_mediaEngineWrapper p |}.

Definition with_eventChannel (c : option EventChannel) (p : Player)
  : Player :=
  {| m_valid := m_valid p; isInitialized := isInitialized p;
     _eventSink := _eventSink p; _eventChannel := c;
     _textureRegistry := _textureRegistry p; _textureId := _textureId p;
     m_windowSize := m_windowSize p; m_descriptor := m_descriptor p;
     m_mediaEngineWrapper := m_mediaEngineWrapper p |}.

Definition with_textureRegistry (r : option TextureRegistrar) (p : Player)
  : Player :=
  {| m_valid := m_valid p; isInitialized := isInitialized p;
     _eventSink := _eventSink p; _eventChannel := _eventChannel p;
     _textureRegistry := r; _textureId := _textureId p;
     m_windowSize := m_windowSize p; m_descriptor := m_descriptor p;
     m_mediaEngineWrapper := m_mediaEngineWrapper p |}.

Definition with_textureId (i : Z) (p : Player) : Player :=
  {| m_valid := m_valid p; isInitialized := isInitialized p;
     _eventSink := _eventSink p; _eventChannel := _eventChannel p;
     _textureRegistry := _textureRegistry p; _textureId := i;
     m_windowSize := m_windowSize p; m_descriptor := m_descriptor p;
     m_mediaEngineWrapper := m_mediaEngineWrapper p |}.

Definition with_windowSize (w : Size) (p : Player) : Player :=
  {| m_valid := m_valid p; isInitialized := isInitialized p;
     _eventSink := _eventSink p; _eventChannel := _eventChannel p;
     _textureRegistry := _textureRegistry p; _textureId := _textureId p;
     m_windowSize := w; m_descriptor := m_descriptor p;
     m_mediaEngineWrapper := m_mediaEngineWrapper p |}.

Definition with_descriptor (d : FlutterDesktopGpuSurfaceDescriptor)
  (p : Player) : Player :=
  {| m_valid := m_valid p; isInitialized := isInitialized p;
     _eventSink := _eventSink p; _eventChannel := _eventChannel p;
     _textureRegistry := _textureRegistry p; _textureId := _textureId p;
     m_windowSize := m_windowSize p; m_descriptor := d;
     m_mediaEngineWrapper := m_mediaEngineWrapper p |}.

Definition with_engine (e : E) (p : Player) : Player :=
  {| m_valid := m_valid p; isInitialized := isInitialized p;
     _eventSink := _eventSink p; _eventChannel := _eventChannel p;
     _textureRegistry := _textureRegistry p; _textureId := _textureId p;
     m_windowSize := m_windowSize p; m_descriptor := m_descriptor p;
     m_mediaEngineWrapper := e |}.

(** *** The monad of member functions *)

(** A call either returns a value and the player it leaves, or crashes
    (a null pointer is dereferenced). *)
Inductive Outcome (A : Type) : Type :=
| Ok (a : A) (p : Player)
| Crash.
Arguments Crash {A}.

Definition M (A : Type) : Type := Player -> Outcome A * list Effect.

Definition ret {A} (a : A) : M A := fun p => (Ok a p, []).

Definition bind {A B} (m : M A) (f : A -> M B) : M B :=
  fun p =>
    match m p with
    | (Ok a p1, t1) => let (r, t2) := f a p1 in (r, t1 ++ t2)
    | (Crash, t1) => (Crash, t1)
    end.

Definition gets {A} (f : Player -> A) : M A := fun p => (Ok (f p) p, []).
Definition modify (f : Player -> Player) : M unit :=
  fun p => (Ok tt (f p), []).
Definition tell (e : Effect) : M unit := fun p => (Ok tt p, [e]).
Definition crash {A} : M A := fun _ => (Crash, []).

(** A call on the engine: it is recorded and changes the engine state. *)
Definition engine (e : Effect) (f : E -> E) : M unit :=
  fun p => (Ok tt (with_engine (f (m_mediaEngineWrapper p)) p), [e]).

End Player.

Arguments Crash {E A}.
Arguments Outcome : clear implicits.
Arguments M : clear implicits.

Declare Scope player_scope.
Delimit Scope player_scope with player.
Notation "x <- m ;; k" := (bind m (fun x => k))
  (at level 61, m at next level, right associativity) : player_scope.
Notation "m ;; k" := (bind m (fun _ => k))
  (at level 61, right associativity) : player_scope.

Section Methods.

Context {E : Type} `{ME : media.MediaEngineWrapper E}.

Local Open Scope player_scope.

(** Modelled from the spec: the member initialisers of the class are in
    video_player.h, which is not under src/.  A new session is valid, not
    initialized and has no listener; the window size is the zero size that
    [UpdateVideoSize] reads as "not initialized yet".  [e] is the engine
    the constructor creates. *)
Definition VideoPlayer_new (e : E) : VideoPlayer E :=
  {| m_valid := true; isInitialized := false;
     _eventSink := None; _eventChannel := None;
     _textureRegistry := None; _textureId := 0;
     m_windowSize := {| Width := 0; Height := 0 |};
     m_descriptor := {| handle := 0; width := 0; height := 0 |};
     m_mediaEngineWrapper := e |}.


(** [VideoPlayer::IsValid]. *)
Definition IsValid : M E bool := gets (@m_valid E).

(** [if (_eventSink) { _eventSink->Success(event); }], the guarded send
    every emitting function ends with. *)
Definition Success_if_attached (event : EncodableValue) : M E unit :=
  k <- gets (@_eventSink E) ;;
  match k with
  | Some sink => tell (SinkSuccess sink event)
  | None => ret tt
  end.

(** [VideoPlayer::Init].  The two lambdas it installs on the channel are
    [onListen] and [onCancel] below. *)
Definition Init (registrar : TextureRegistrar) (textureId : Z) : M E unit :=
  modify (with_textureId textureId) ;;
  modify (with_eventChannel
            (Some {| channel_prefix := "flutter.io/videoPlayer/videoEvents";
                     channel_texture := textureId |})) ;;
  modify (with_textureRegistry (Some registrar)).

(** [this->_eventSink = std::move(events);] *)
Definition onListen (events : EventSink) : M E unit :=
  modify (with_eventSink (Some events)).

(** [this->_eventSink = nullptr;] *)
Definition onCancel : M E unit := modify (with_eventSink None).

(** [VideoPlayer::SendInitialized]. *)
Definition SendInitialized : M E unit :=
  init <- gets (@isInitialized E) ;;
  if init then
    e <- gets (@m_mediaEngineWrapper E) ;;
    let event :=
      [ (EString "event", EString "initialized");
        (EString "duration", EInt64 (int64_cast (media.GetDuration e))) ] in
    let '(width, height) := media.GetNativeVideoSize e in
    let event := event ++ [ (EString "width", EInt32 (int32_cast width)) ] in
    let event := event ++ [ (EString "height", EInt32 (int32_cast height)) ] in
    Success_if_attached (EncodableMap event)
  else ret tt.

(** [VideoPlayer::OnMediaInitialized]. *)
Definition OnMediaInitialized : M E unit :=
  engine (EngineSeekTo 0) (media.SeekTo 0) ;;
  init <- gets (@isInitialized E) ;;
  if negb init then
    modify (with_isInitialized true) ;;
    SendInitialized
  else ret tt.

(** [VideoPlayer::UpdateVideoSize].  [GetWindowRect] is what the system
    call answers: [Some rect] when it succeeds, [None] when it fails.  The
    test [if (m_mediaEngineWrapper)] holds on every constructed player, and
    [RunSyncInMTA] runs its closure to completion before it returns. *)
Definition UpdateVideoSize (GetWindowRect : option RECT) : M E unit :=
  match GetWindowRect with
  | Some rect =>
      let width := int32_cast (right rect - left rect) in
      let height := int32_cast (bottom rect - top rect) in
      modify (with_windowSize {| Width := float_of_int width;
                                 Height := float_of_int height |})
  | None => ret tt
  end ;;
  size <- gets (@m_windowSize E) ;;
  let windowInitialized :=
    negb (Width size =? 0) && negb (Height size =? 0) in
  let width := if windowInitialized then Width size else 640 in
  let height := if windowInitialized then Height size else 480 in
  engine (EngineOnWindowUpdate (uint32_of_float width)
                               (uint32_of_float height))
         (media.OnWindowUpdate (uint32_of_float width)
                               (uint32_of_float height)).

(** [VideoPlayer::ObtainDescriptorCallback].  The callback handed to the
    engine dereferences [_textureRegistry]. *)
Definition ObtainDescriptorCallback (width height : Z)
  (GetWindowRect : option RECT) : M E FlutterDesktopGpuSurfaceDescriptor :=
  e <- gets (@m_mediaEngineWrapper E) ;;
  d <- gets (@m_descriptor E) ;;
  let w := uint32_cast width in
  let h := uint32_cast height in
  let '(e', d', called) := media.UpdateSurfaceDescriptor w h d e in
  tell (EngineUpdateSurfaceDescriptor w h) ;;
  (if called : bool then
     reg <- gets (@_textureRegistry E) ;;
     id <- gets (@_textureId E) ;;
     match reg with
     | Some r => tell (MarkTextureFrameAvailable r id)
     | None => crash
     end
   else ret tt) ;;
  modify (with_engine e') ;;
  modify (with_descriptor d') ;;
  UpdateVideoSize GetWindowRect ;;
  gets (@m_descriptor E).

(** [VideoPlayer::OnMediaError]: the error is logged. *)
Definition OnMediaError (error hr : Z) : M E unit := tell (LogHr hr error).

(** [VideoPlayer::SetBuffering]. *)
Definition SetBuffering (buffering : bool) : M E unit :=
  Success_if_attached
    (EncodableMap
       [ (EString "event",
          EString (if buffering then "bufferingStart" else "bufferingEnd")) ]).

(** The loop of [SendBufferingUpdate]: one [push_back] per range. *)
Definition push_ranges (ranges : list (Z * Z)) : list EncodableValue :=
  fold_left
    (fun values range =>
       let '(start, end_) := range in
       values ++ [ EncodableList [ EInt64 (int64_cast start);
                                   EInt64 (int64_cast end_) ] ])
    ranges [].

(** [VideoPlayer::SendBufferingUpdate]. *)
Definition SendBufferingUpdate : M E unit :=
  e <- gets (@m_mediaEngineWrapper E) ;;
  let values := push_ranges (media.GetBufferedRanges e) in
  Success_if_attached
    (EncodableMap [ (EString "event", EString "bufferingUpdate");
                    (EString "values", EncodableList values) ]).

(** [VideoPlayer::OnMediaStateChange]. *)
Definition OnMediaStateChange (bufferingState : media.BufferingState)
  : M E unit :=
  if media.is_HAVE_NOTHING bufferingState then
    SetBuffering true ;;
    SendBufferingUpdate
  else
    init <- gets (@isInitialized E) ;;
    (if negb init then
       modify (with_isInitialized true) ;;
       SendInitialized
     else ret tt) ;;
    SetBuffering false.

(** [VideoPlayer::OnPlaybackEnded]. *)
Definition OnPlaybackEnded : M E unit :=
  Success_if_attached
    (EncodableMap [ (EString "event", EString "completed") ]).

(** [VideoPlayer::Dispose]. *)
Definition Dispose : M E unit :=
  init <- gets (@isInitialized E) ;;
  (if init then engine EnginePause media.Pause else ret tt) ;;
  modify (with_eventChannel None).

(** [VideoPlayer::SetLooping]. *)
Definition SetLooping (isLooping : bool) : M E unit :=
  engine (EngineSetLooping isLooping) (media.SetLooping isLooping).

(** [VideoPlayer::Play]. *)
Definition Play : M E unit :=
  e <- gets (@m_mediaEngineWrapper E) ;;
  let t := media.GetMediaTime e in
  engine (EngineStartPlayingFrom t) (media.StartPlayingFrom t).

(** [VideoPlayer::Pause]. *)
Definition Pause : M E unit := engine EnginePause media.Pause.

(** [VideoPlayer::GetPosition]; the result is an [int64_t]. *)
Definition GetPosition : M E Z :=
  e <- gets (@m_mediaEngineWrapper E) ;;
  ret (int64_cast (media.GetMediaTime e)).

(** [VideoPlayer::SeekTo]. *)
Definition SeekTo (seek : Z) : M E unit :=
  engine (EngineSeekTo seek) (media.SeekTo seek).

(** [VideoPlayer::GetTextureId]. *)
Definition GetTextureId : M E Z := gets (@_textureId E).

End Methods.

(** ** Sessions as sequences of calls *)

(** The four callbacks the constructor hands to the engine. *)
Inductive Callback : Type :=
| onInitialized
| onError (error hr : Z)
| onBufferingStateChanged (bufferingState : media.BufferingState)
| onPlaybackEnded.

(** Everything that can call into a player: the engine, the event channel
    (listener attached or detached), the texture registrar (frame request,
    with the answer [GetWindowRect] gives during that request) and the
    host. *)
Inductive Input : Type :=
| FromEngine (cb : Callback)
| Listen (events : EventSink)
| Cancel
| FrameRequest (width height : Z) (GetWindowRect : option RECT)
| HostInit (registrar : TextureRegistrar) (textureId : Z)
| HostDispose
| HostPlay
| HostPause
| HostSetLooping (isLooping : bool)
| HostSeekTo (seek : Z)
| HostGetPosition.

(** A buffering callback that signals readiness, or the dedicated
    callback. *)
Definition signals_ready (i : Input) : bool :=
  match i with
  | FromEngine onInitialized => true
  | FromEngine (onBufferingStateChanged b) => negb (media.is_HAVE_NOTHING b)
  | _ => false
  end.

Section Sessions.

Context {E : Type} `{ME : media.MediaEngineWrapper E}.

Local Open Scope player_scope.

(** The [std::bind]s of the constructor. *)
Definition callback (cb : Callback) : M E unit :=
  match cb with
  | onInitialized => OnMediaInitialized
  | onError error hr => OnMediaError error hr
  | onBufferingStateChanged b => OnMediaStateChange b
  | onPlaybackEnded => OnPlaybackEnded
  end.

Definition step (i : Input) : M E unit :=
  match i with
  | FromEngine cb => callback cb
  | Listen events => onListen events
  | Cancel => onCancel
  | FrameRequest w h rect => _ <- ObtainDescriptorCallback w h rect ;; ret tt
  | HostInit registrar textureId => Init registrar textureId
  | HostDispose => Dispose
  | HostPlay => Play
  | HostPause => Pause
  | HostSetLooping b => SetLooping b
  | HostSeekTo t => SeekTo t
  | HostGetPosition => _ <- GetPosition ;; ret tt
  end.

Fixpoint run (inputs : list Input) : M E unit :=
  match inputs with
  | [] => ret tt
  | i :: rest => step i ;; run rest
  end.

(** The player a computation leaves, when it does not crash. *)
Definition player_after {A} (r : Outcome E A * list Effect)
  : option (VideoPlayer E) :=
  match r with
  | (Ok _ p, _) => Some p
  | (Crash, _) => None
  end.

(** Whether the calls [m] turns the initialized flag of [p] from false to
    true. *)
Definition turns_initialized {A} (m : M E A) (p : VideoPlayer E) : bool :=
  match player_after (m p) with
  | Some p' => negb (isInitialized p) && isInitialized p'
  | None => false
  end.

(** How many calls of a session turn the flag from false to true. *)
Fixpoint transitions (inputs : list Input) (p : VideoPlayer E) : nat :=
  match inputs with
  | [] => 0%nat
  | i :: rest =>
      ((if turns_initialized (step i) p then 1 else 0) +
       match player_after (step i p) with
       | Some p' => transitions rest p'
       | None => 0
       end)%nat
  end.

(** What the guarded send delivers for [event] in state [p]. *)
Definition emit (p : VideoPlayer E) (event : EncodableValue)
  : list Effect :=
  match _eventSink p with
  | Some sink => [SinkSuccess sink event]
  | None => []
  end.

(** The record [SendInitialized] builds from the engine state [e]. *)
Definition initialized_event (e : E) : EncodableValue :=
  EncodableMap
    [ (EString "event", EString "initialized");
      (EString "duration", EInt64 (int64_cast (media.GetDuration e)));
      (EString "width",
       EInt32 (int32_cast (fst (media.GetNativeVideoSize e))));
      (EString "height",
       EInt32 (int32_cast (snd (media.GetNativeVideoSize e)))) ].

Definition buffering_event (buffering : bool) : EncodableValue :=
  EncodableMap
    [ (EString "event",
       EString (if buffering then "bufferingStart" else "bufferingEnd")) ].

Definition bufferingUpdate_event (values : list EncodableValue)
  : EncodableValue :=
  EncodableMap [ (EString "event", EString "bufferingUpdate");
                 (EString "values", EncodableList values) ].

Definition completed_event : EncodableValue :=
  EncodableMap [ (EString "event", EString "completed") ].

(** The size [UpdateVideoSize] hands to the engine when the stored window
    size is [size]. *)
Definition display_size (size : Size) : Z * Z :=
  if negb (Width size =? 0) && negb (Height size =? 0)
  then (uint32_of_float (Width size), uint32_of_float (Height size))
  else (640, 480).

(** The window size [UpdateVideoSize] stores for an answer of
    [GetWindowRect]. *)
Definition refreshed_size (GetWindowRect : option RECT) (old : Size)
  : Size :=
  match GetWindowRect with
  | Some rect =>
      {| Width := float_of_int (int32_cast (right rect - left rect));
         Height := float_of_int (int32_cast (bottom rect - top rect)) |}
  | None => old
  end.

(** The pair [SendBufferingUpdate] pushes for one buffered range. *)
Definition range_value (r : Z * Z) : EncodableValue :=
  EncodableList [EInt64 (int64_cast (fst r)); EInt64 (int64_cast (snd r))].

(** The same result with [f] applied to the player it leaves. *)
Definition map_player {A} (f : VideoPlayer E -> VideoPlayer E)
  (r : Outcome E A * list Effect) : Outcome E A * list Effect :=
  match r with
  | (Ok a p, tr) => (Ok a (f p), tr)
  | (Crash, tr) => (Crash, tr)
  end.

(** A callback is dropped when it leaves the player as it was and does
    nothing outside. *)
Definition dropped (cb : Callback) (p : VideoPlayer E) : Prop :=
  callback cb p = (Ok tt p, []).

End Sessions.

(** The [bufferingFlag] of the spec, "derived purely from the latest engine
    buffering-state callback": true when that callback reported
    [HAVE_NOTHING].  The source keeps no such member; the flag is computed
    here from the calls a session has received, starting from [flag]. *)
Fixpoint spec_bufferingFlag (history : list Input) (flag : bool) : bool :=
  match history with
  | [] => flag
  | FromEngine (onBufferingStateChanged b) :: rest =>
      spec_bufferingFlag rest (media.is_HAVE_NOTHING b)
  | _ :: rest => spec_bufferingFlag rest flag
  end.

(** ** A test double for the engine *)

(** Modelled from the spec: the engine is an external collaborator; the spec
    asks for a test double that returns the last seek target as media time,
    sizes the descriptor to the requested width and height and signals one
    available frame per refresh, and records the window size it is given. *)
Record StubEngine : Type :=
  { stub_time : Z;
    stub_paused : bool;
    stub_looping : bool;
    stub_window : Z * Z;
    stub_duration : Z;
    stub_native_size : Z * Z;
    stub_ranges : list (Z * Z) }.

#[export] Instance StubEngine_wrapper : media.MediaEngineWrapper StubEngine :=
  {| media.SeekTo t e :=
       {| stub_time := t; stub_paused := stub_paused e;
          stub_looping := stub_looping e; stub_window := stub_window e;
          stub_duration := stub_duration e;
          stub_native_size := stub_native_size e;
          stub_ranges := stub_ranges e |};
     media.Pause e :=
       {| stub_time := stub_time e; stub_paused := true;
          stub_looping := stub_looping e; stub_window := stub_window e;
          stub_duration := stub_duration e;
          stub_native_size := stub_native_size e;
          stub_ranges := stub_ranges e |};
     media.StartPlayingFrom t e :=
       {| stub_time := t; stub_paused := false;
          stub_looping := stub_looping e; stub_window := stub_window e;
          stub_duration := stub_duration e;
          stub_native_size := stub_native_size e;
          stub_ranges := stub_ranges e |};
     media.SetLooping b e :=
       {| stub_time := stub_time e; stub_paused := stub_paused e;
          stub_looping := b; stub_window := stub_window e;
          stub_duration := stub_duration e;
          stub_native_size := stub_native_size e;
          stub_ranges := stub_ranges e |};
     media.OnWindowUpdate w h e :=
       {| stub_time := stub_time e; stub_paused := stub_paused e;
          stub_looping := stub_looping e; stub_window := (w, h);
          stub_duration := stub_duration e;
          stub_native_size := stub_native_size e;
          stub_ranges := stub_ranges e |};
     media.UpdateSurfaceDescriptor w h d e :=
       (e, {| handle := handle d; width := w; height := h |}, true);
     media.GetMediaTime := stub_time;
     media.GetDuration := stub_duration;
     media.GetNativeVideoSize := stub_native_size;
     media.GetBufferedRanges := stub_ranges |}.

(** A stub with a ten second, 1280x720 medium and two buffered ranges. *)
Definition stub0 : StubEngine :=
  {| stub_time := 0; stub_paused := true; stub_looping := false;
     stub_window := (0, 0); stub_duration := 10000;
     stub_native_size := (1280, 720);
     stub_ranges := [(0, 2500); (4000, 6000)] |}.

(** A new session on the stub, and the same session once [Init] has run and
    a listener is attached. *)
Definition session0 : VideoPlayer StubEngine := VideoPlayer_new stub0.

Definition listened0 : VideoPlayer StubEngine :=
  with_eventSink (Some 7%nat)
    (with_textureRegistry (Some 1%nat)
       (with_eventChannel
          (Some {| channel_prefix := "flutter.io/videoPlayer/videoEvents";
                   channel_texture := 5 |})
          (with_textureId 5 session0))).

(** [listened0] after the engine has called [onInitialized]. *)
Definition initialized0 : VideoPlayer StubEngine :=
  with_isInitialized true listened0.

(** [listened0] after [Dispose]. *)
Definition disposed0 : VideoPlayer StubEngine :=
  with_eventChannel None listened0.

(** An 800x600 window, and a window of no width. *)
Definition rect_800x600 : RECT :=
  {| left := 100; top := 50; right := 900; bottom := 650 |}.

Definition rect_degenerate : RECT :=
  {| left := 100; top := 50; right := 100; bottom := 350 |}.

(** [listened0] after a 1920x1080 frame request in the 800x600 window. *)
Definition windowed0 : VideoPlayer StubEngine :=
  with_engine (media.OnWindowUpdate 800 600 stub0)
    (with_windowSize {| Width := 800; Height := 600 |}
       (with_descriptor {| handle := 0; width := 1920; height := 1080 |}
          listened0)).

(** ** Observations on calls and traces *)

Definition is_Listen (i : Input) : bool :=
  match i with Listen _ => true | _ => false end.

Definition is_Cancel (i : Input) : bool :=
  match i with Cancel => true | _ => false end.

Definition is_HostInit (i : Input) : bool :=
  match i with HostInit _ _ => true | _ => false end.

Definition is_FrameRequest (i : Input) : bool :=
  match i with FrameRequest _ _ _ => true | _ => false end.

Definition is_playback_ended (i : Input) : bool :=
  match i with FromEngine onPlaybackEnded => true | _ => false end.

(** A buffering callback, with [HAVE_NOTHING] ([nothing = true]) or with
    another state ([nothing = false]). *)
Definition is_buffering (nothing : bool) (i : Input) : bool :=
  match i with
  | FromEngine (onBufferingStateChanged b) =>
      Bool.eqb (media.is_HAVE_NOTHING b) nothing
  | _ => false
  end.

(** How many calls of a session satisfy [f]. *)
Definition count_inputs (f : Input -> bool) (inputs : list Input) : nat :=
  List.length (List.filter f inputs).

(** The frame notifications of a trace: registrar and texture id. *)
Fixpoint notifications (tr : list Effect) : list (TextureRegistrar * Z) :=
  match tr with
  | [] => []
  | MarkTextureFrameAvailable r id :: tr' => (r, id) :: notifications tr'
  | _ :: tr' => notifications tr'
  end.

(** The sizes a trace hands to the engine's [OnWindowUpdate]. *)
Fixpoint window_updates (tr : list Effect) : list (Z * Z) :=
  match tr with
  | [] => []
  | EngineOnWindowUpdate w h :: tr' => (w, h) :: window_updates tr'
  | _ :: tr' => window_updates tr'
  end.

(** The calls a trace makes on the engine. *)
Fixpoint engine_calls (tr : list Effect) : list Effect :=
  match tr with
  | [] => []
  | SinkSuccess _ _ :: tr' => engine_calls tr'
  | MarkTextureFrameAvailable _ _ :: tr' => engine_calls tr'
  | LogHr _ _ :: tr' => engine_calls tr'
  | e :: tr' => e :: engine_calls tr'
  end.

(** The five event names of the channel. *)
Definition event_names : list string :=
  ["initialized"; "completed"; "bufferingStart"; "bufferingEnd";
   "bufferingUpdate"].

(** A window size with sides from 0 to [2^31], the [float]s of the
    non-negative [int]s. *)
Definition nonneg_sized (size : Size) : Prop :=
  (0 <= Width size <= 2 ^ 31) /\ (0 <= Height size <= 2 ^ 31).

(** A window rectangle whose right and bottom edges are not before its
    left and top edges, with sides that fit an [int]. *)
Definition rect_in_range (rect : RECT) : Prop :=
  (0 <= right rect - left rect < 2 ^ 31)
  /\ (0 <= bottom rect - top rect < 2 ^ 31).

(** A session in which every window rectangle read is such a rectangle. *)
Definition frames_in_range (inputs : list Input) : Prop :=
  Forall (fun i =>
            match i with
            | FrameRequest _ _ (Some rect) => rect_in_range rect
            | _ => True
            end) inputs.

(** The channel [Init] creates for a texture id. *)
Definition channel_of (textureId : Z) : EventChannel :=
  {| channel_prefix := "flutter.io/videoPlayer/videoEvents";
     channel_texture := textureId |}.

(** ** What each member function does *)

Ltac open_player p :=
  destruct p as [valid init sink chan reg tid size desc eng].

(** Runs a member function on an opened player as far as the known
    members allow. *)
Ltac run_member :=
  cbv [bind ret gets modify tell engine crash Success_if_attached
       SendInitialized OnMediaInitialized UpdateVideoSize
       ObtainDescriptorCallback OnMediaError SetBuffering
       SendBufferingUpdate OnMediaStateChange OnPlaybackEnded Dispose
       SetLooping Play Pause GetPosition SeekTo GetTextureId Init onListen
       onCancel IsValid callback step emit
       with_valid with_isInitialized with_eventSink with_eventChannel
       with_textureRegistry with_textureId with_windowSize with_descriptor
       with_engine m_valid isInitialized _eventSink _eventChannel
       _textureRegistry _textureId m_windowSize m_descriptor
       m_mediaEngineWrapper media.is_HAVE_NOTHING negb app].

Section Facts.

Context {E : Type} `{ME : media.MediaEngineWrapper E}.

Implicit Type p : VideoPlayer E.

Lemma push_back_loop (ranges : list (Z * Z)) (acc : list EncodableValue) :
  fold_left
    (fun values range =>
       let '(start, end_) := range in
       values ++ [ EncodableList [ EInt64 (int64_cast start);
                                   EInt64 (int64_cast end_) ] ])
    ranges acc = acc ++ map range_value ranges.
Proof.
  revert acc.
  induction ranges as [|[a b] rest IH]; intro acc; simpl.
  - now rewrite app_nil_r.
  - rewrite IH, <- app_assoc. reflexivity.
Qed.

Lemma push_ranges_map (ranges : list (Z * Z)) :
  push_ranges ranges = map range_value ranges.
Proof. apply push_back_loop. Qed.

Lemma Success_if_attached_eq (event : EncodableValue) p :
  Success_if_attached event p = (Ok tt p, emit p event).
Proof. open_player p. destruct sink; reflexivity. Qed.

Lemma OnMediaInitialized_eq p :
  OnMediaInitialized p =
  let e := media.SeekTo 0 (m_mediaEngineWrapper p) in
  (Ok tt (with_isInitialized true (with_engine e p)),
   EngineSeekTo 0 ::
     if isInitialized p then [] else emit p (initialized_event e)).
Proof.
  open_player p. destruct init, sink; run_member; try reflexivity.
  all: unfold initialized_event;
    destruct (media.GetNativeVideoSize _); reflexivity.
Qed.

Lemma OnMediaStateChange_nothing_eq p :
  OnMediaStateChange media.HAVE_NOTHING p =
  (Ok tt p,
   emit p (buffering_event true) ++
   emit p (bufferingUpdate_event
             (map range_value
                  (media.GetBufferedRanges (m_mediaEngineWrapper p))))).
Proof.
  open_player p. destruct sink; run_member; try reflexivity.
  unfold bufferingUpdate_event. now rewrite push_ranges_map.
Qed.

Lemma OnMediaStateChange_enough_eq p :
  OnMediaStateChange media.HAVE_ENOUGH p =
  (Ok tt (with_isInitialized true p),
   (if isInitialized p then []
    else emit p (initialized_event (m_mediaEngineWrapper p))) ++
   emit p (buffering_event false)).
Proof.
  open_player p. destruct init, sink; run_member; try reflexivity.
  all: unfold initialized_event;
    destruct (media.GetNativeVideoSize _); reflexivity.
Qed.

Lemma OnPlaybackEnded_eq p :
  OnPlaybackEnded p = (Ok tt p, emit p completed_event).
Proof. apply Success_if_attached_eq. Qed.

Lemma Dispose_eq p :
  Dispose p =
  (Ok tt (with_eventChannel None
            (if isInitialized p
             then with_engine (media.Pause (m_mediaEngineWrapper p)) p
             else p)),
   if isInitialized p then [EnginePause] else []).
Proof. open_player p. destruct init; reflexivity. Qed.

Lemma UpdateVideoSize_eq (rect : option RECT) p :
  UpdateVideoSize rect p =
  let size := refreshed_size rect (m_windowSize p) in
  let wh := display_size size in
  (Ok tt (with_engine
            (media.OnWindowUpdate (fst wh) (snd wh) (m_mediaEngineWrapper p))
            (with_windowSize size p)),
   [EngineOnWindowUpdate (fst wh) (snd wh)]).
Proof.
  open_player p. unfold display_size.
  destruct rect as [rect|]; run_member; cbn [refreshed_size Width Height].
  - destruct (_ && _); reflexivity.
  - destruct (_ && _); reflexivity.
Qed.

Lemma ObtainDescriptorCallback_eq (w h : Z) (rect : option RECT) p :
  ObtainDescriptorCallback w h rect p =
  let '(e', d', called) :=
    media.UpdateSurfaceDescriptor (uint32_cast w) (uint32_cast h)
      (m_descriptor p) (m_mediaEngineWrapper p) in
  let size := refreshed_size rect (m_windowSize p) in
  let wh := display_size size in
  let update := EngineUpdateSurfaceDescriptor (uint32_cast w) (uint32_cast h) in
  let resized :=
    with_engine (media.OnWindowUpdate (fst wh) (snd wh) e')
      (with_windowSize size (with_descriptor d' p)) in
  if called then
    match _textureRegistry p with
    | Some r =>
        (Ok d' resized,
         [update; MarkTextureFrameAvailable r (_textureId p);
          EngineOnWindowUpdate (fst wh) (snd wh)])
    | None => (Crash, [update])
    end
  else (Ok d' resized, [update; EngineOnWindowUpdate (fst wh) (snd wh)]).
Proof.
  open_player p. unfold display_size.
  cbn [m_descriptor m_mediaEngineWrapper m_windowSize _textureRegistry
       _textureId].
  unfold ObtainDescriptorCallback.
  cbv [bind gets m_descriptor m_mediaEngineWrapper].
  destruct (media.UpdateSurfaceDescriptor _ _ _ _) as [[e' d'] called].
  destruct called, reg as [r|], rect as [rect|];
    run_member; cbn [refreshed_size Width Height];
    try reflexivity; destruct (_ && _); reflexivity.
Qed.

End Facts.

(** ** Properties of the session controller *)

Section Claims.

Context {E : Type} `{ME : media.MediaEngineWrapper E}.

Implicit Type p : VideoPlayer E.

(** C6.  Every call of [OnMediaInitialized] starts with the engine's
    [SeekTo(0)], whatever the initialized flag says.  On a session that is
    not yet initialized the seek is followed by the initialized event (to
    the attached listener); the session is then initialized, and a second
    call does nothing but the seek. *)
Theorem C6_onInitialized_seeks_to_zero p :
  let e1 := media.SeekTo 0 (m_mediaEngineWrapper p) in
  let p1 := with_isInitialized true (with_engine e1 p) in
  callback onInitialized p =
    (Ok tt p1,
     EngineSeekTo 0 ::
       if isInitialized p then [] else emit p (initialized_event e1))
  /\ isInitialized p1 = true
  /\ callback onInitialized p1 =
       (Ok tt (with_engine (media.SeekTo 0 e1) p1), [EngineSeekTo 0]).
Proof.
  cbn zeta. split; [apply OnMediaInitialized_eq|].
  split; [reflexivity|].
  cbn [callback]. rewrite OnMediaInitialized_eq.
  open_player p. reflexivity.
Qed.

(** C10.  [SeekTo] and [GetPosition] pass straight through to the engine:
    on an engine whose media time is the last seek target, [SeekTo(T)]
    followed by [GetPosition()] returns [T], for every [int64_t] [T]. *)
Theorem C10_seek_then_position p (T : Z) :
  (forall t e, media.GetMediaTime (media.SeekTo t e) = t) ->
  - 2 ^ 63 <= T < 2 ^ 63 ->
  bind (SeekTo T) (fun _ => GetPosition) p =
    (Ok T (with_engine (media.SeekTo T (m_mediaEngineWrapper p)) p),
     [EngineSeekTo T])
  /\ SeekTo T p =
       (Ok tt (with_engine (media.SeekTo T (m_mediaEngineWrapper p)) p),
        [EngineSeekTo T])
  /\ GetPosition p =
       (Ok (int64_cast (media.GetMediaTime (m_mediaEngineWrapper p))) p, []).
Proof.
  intros last_seek range.
  assert (int64_cast T = T) as cast_id.
  { unfold int64_cast. rewrite Z.mod_small; lia. }
  open_player p. run_member. rewrite last_seek, cast_id. auto.
Qed.

Lemma emit_detached p (event : EncodableValue) :
  emit (with_eventSink None p) event = [].
Proof. reflexivity. Qed.

Lemma sink_events_app (a b : list Effect) :
  sink_events (a ++ b) = sink_events a ++ sink_events b.
Proof.
  induction a as [|x a IH]; [reflexivity|].
  destruct x; cbn; now rewrite ?IH.
Qed.


(** A callback on a session without listener returns, delivers nothing,
    leaves the listener member empty and sets the initialized flag when it
    signals readiness. *)
Lemma callback_detached (cb : Callback) p :
  exists p' tr,
    callback cb (with_eventSink None p) = (Ok tt p', tr)
    /\ sink_events tr = []
    /\ _eventSink p' = None
    /\ isInitialized p' = isInitialized p || signals_ready (FromEngine cb).
Proof.
  destruct cb as [ | error hr | [|] | ]; cbn [callback signals_ready].
  - rewrite OnMediaInitialized_eq. cbn zeta. rewrite emit_detached.
    eexists _, _. split; [reflexivity|]. split; [|split].
    + now destruct (isInitialized _).
    + reflexivity.
    + cbn. now rewrite orb_true_r.
  - eexists _, _. split; [reflexivity|]. repeat split.
    cbn. now rewrite orb_false_r.
  - rewrite OnMediaStateChange_nothing_eq, !emit_detached.
    eexists _, _. split; [reflexivity|]. repeat split.
    cbn. now rewrite orb_false_r.
  - rewrite OnMediaStateChange_enough_eq, !emit_detached.
    eexists _, _. split; [reflexivity|]. split; [|split].
    + now destruct (isInitialized _).
    + reflexivity.
    + cbn. now rewrite orb_true_r.
  - rewrite OnPlaybackEnded_eq, emit_detached.
    eexists _, _. split; [reflexivity|]. repeat split.
    cbn. now rewrite orb_false_r.
Qed.

(** What a callback does on a session whose listener is [listener]. *)
Lemma callback_attached (trigger : Callback) p (listener : EventSink) :
  _eventSink p = Some listener ->
  let e := m_mediaEngineWrapper p in
  snd (callback trigger p) =
  match trigger with
  | onInitialized =>
      EngineSeekTo 0 ::
        (if isInitialized p then []
         else [SinkSuccess listener
                 (initialized_event (media.SeekTo 0 e))])
  | onError error hr => [LogHr hr error]
  | onBufferingStateChanged media.HAVE_NOTHING =>
      [SinkSuccess listener (buffering_event true);
       SinkSuccess listener
         (bufferingUpdate_event
            (map range_value (media.GetBufferedRanges e)))]
  | onBufferingStateChanged media.HAVE_ENOUGH =>
      (if isInitialized p then []
       else [SinkSuccess listener (initialized_event e)])
      ++ [SinkSuccess listener (buffering_event false)]
  | onPlaybackEnded => [SinkSuccess listener completed_event]
  end.
Proof.
  intros attached. cbn zeta.
  destruct trigger as [ | error hr | [|] | ]; cbn [callback].
  - rewrite OnMediaInitialized_eq. unfold emit. now rewrite attached.
  - reflexivity.
  - rewrite OnMediaStateChange_nothing_eq. unfold emit. now rewrite attached.
  - rewrite OnMediaStateChange_enough_eq. unfold emit. now rewrite attached.
  - rewrite OnPlaybackEnded_eq. unfold emit. now rewrite attached.
Qed.

(** C8 (amended).  While no listener is attached, a callback of any kind
    returns normally, delivers no event and leaves the listener member
    empty: the events it would send (initialized, completed,
    bufferingStart, bufferingEnd, bufferingUpdate) are dropped, and nothing
    is kept for later.  After "detach, any callback, attach", the next
    callback delivers, to the new listener, exactly the events it sends
    itself and none of what was dropped: [onPlaybackEnded] one completed;
    a [HAVE_NOTHING] buffering callback bufferingStart and then
    bufferingUpdate; another buffering callback bufferingEnd, after an
    initialized if the session is not yet initialized; [onInitialized] one
    initialized if the session is not yet initialized and none otherwise,
    so an initialized event dropped while detached is never delivered;
    [onError] none.  In the scenario "detach, playback ends, attach,
    playback ends" the first end of playback delivers nothing and the
    second delivers exactly one completed event. *)
Theorem C8_detached_listener_drops p :
  (forall cb, exists p' tr,
      callback cb (with_eventSink None p) = (Ok tt p', tr)
      /\ sink_events tr = []
      /\ _eventSink p' = None)
  /\ run [Cancel; FromEngine onPlaybackEnded] p =
       (Ok tt (with_eventSink None p), [])
  /\ (forall events,
        run [Cancel; FromEngine onPlaybackEnded;
             Listen events; FromEngine onPlaybackEnded] p =
          (Ok tt (with_eventSink (Some events) p),
           [SinkSuccess events completed_event]))
  /\ (forall cb events trigger, exists q tr0,
        run [Cancel; FromEngine cb; Listen events] p = (Ok tt q, tr0)
        /\ sink_events tr0 = []
        /\ _eventSink q = Some events
        /\ isInitialized q =
             isInitialized p || signals_ready (FromEngine cb)
        /\ snd (run [Cancel; FromEngine cb; Listen events;
                     FromEngine trigger] p) =
             tr0 ++ snd (callback trigger q)
        /\ snd (callback trigger q) =
             match trigger with
             | onInitialized =>
                 EngineSeekTo 0 ::
                   (if isInitialized q then []
                    else [SinkSuccess events
                            (initialized_event
                               (media.SeekTo 0 (m_mediaEngineWrapper q)))])
             | onError error hr => [LogHr hr error]
             | onBufferingStateChanged media.HAVE_NOTHING =>
                 [SinkSuccess events (buffering_event true);
                  SinkSuccess events
                    (bufferingUpdate_event
                       (map range_value
                            (media.GetBufferedRanges
                               (m_mediaEngineWrapper q))))]
             | onBufferingStateChanged media.HAVE_ENOUGH =>
                 (if isInitialized q then []
                  else [SinkSuccess events
                          (initialized_event (m_mediaEngineWrapper q))])
                 ++ [SinkSuccess events (buffering_event false)]
             | onPlaybackEnded => [SinkSuccess events completed_event]
             end).
Proof.
  split; [|split; [|split]].
  - intros cb. destruct (callback_detached cb p) as (p' & tr & H & ? & ? & _).
    now exists p', tr.
  - open_player p. reflexivity.
  - intros events. open_player p. reflexivity.
  - intros cb events trigger.
    destruct (callback_detached cb p) as (q1 & tr1 & Hcb & silent & _ & flag).
    exists (with_eventSink (Some events) q1), tr1.
    assert (run [Cancel; FromEngine cb; Listen events] p =
            (Ok tt (with_eventSink (Some events) q1), tr1)) as reattached.
    { cbn [run step]. unfold bind, onCancel, onListen, modify, ret.
      rewrite Hcb. now rewrite app_nil_r. }
    split; [exact reattached|]. split; [exact silent|].
    split; [reflexivity|]. split; [exact flag|]. split.
    + cbn [run step]. unfold bind, onCancel, onListen, modify, ret.
      rewrite Hcb. cbn.
      destruct (callback trigger _) as [[[] q2|] tr2]; cbn;
        now rewrite ?app_nil_r.
    + now apply callback_attached.
Qed.


(** C3 (amended).  Buffering callbacks emit buffering events before
    initialization as they do after it.  On a session that is not
    initialized and has a listener, a [HAVE_NOTHING] callback delivers
    bufferingStart and then bufferingUpdate and leaves the session as it
    was, still uninitialized; any other buffering callback sets the
    initialized flag and delivers initialized and then bufferingEnd. *)
Theorem C3_buffering_events_before_initialization p (listener : EventSink) :
  isInitialized p = false ->
  _eventSink p = Some listener ->
  let e := m_mediaEngineWrapper p in
  callback (onBufferingStateChanged media.HAVE_NOTHING) p =
    (Ok tt p,
     [SinkSuccess listener (buffering_event true);
      SinkSuccess listener
        (bufferingUpdate_event
           (map range_value (media.GetBufferedRanges e)))])
  /\ callback (onBufferingStateChanged media.HAVE_ENOUGH) p =
       (Ok tt (with_isInitialized true p),
        [SinkSuccess listener (initialized_event e);
         SinkSuccess listener (buffering_event false)]).
Proof.
  intros Hinit Hsink. cbn [callback].
  rewrite OnMediaStateChange_nothing_eq, OnMediaStateChange_enough_eq.
  unfold emit. rewrite Hinit, Hsink. split; reflexivity.
Qed.

(** C4 (amended).  On an initialized session with a listener, every
    [HAVE_NOTHING] callback delivers exactly one bufferingStart (followed
    by one bufferingUpdate), and every other buffering callback delivers
    exactly one bufferingEnd and nothing else, whatever came before: the
    player keeps no buffering flag. *)
Theorem C4_buffering_events_after_initialization p (listener : EventSink) :
  isInitialized p = true ->
  _eventSink p = Some listener ->
  let nothing := callback (onBufferingStateChanged media.HAVE_NOTHING) p in
  let enough := callback (onBufferingStateChanged media.HAVE_ENOUGH) p in
  nothing =
    (Ok tt p,
     [SinkSuccess listener (buffering_event true);
      SinkSuccess listener
        (bufferingUpdate_event
           (map range_value
                (media.GetBufferedRanges (m_mediaEngineWrapper p))))])
  /\ count_event "bufferingStart" (snd nothing) = 1%nat
  /\ count_event "bufferingEnd" (snd nothing) = 0%nat
  /\ enough = (Ok tt p, [SinkSuccess listener (buffering_event false)])
  /\ count_event "bufferingEnd" (snd enough) = 1%nat.
Proof.
  intros Hinit Hsink. cbn [callback] in *. cbn zeta.
  rewrite OnMediaStateChange_nothing_eq, OnMediaStateChange_enough_eq.
  unfold emit. rewrite Hinit, Hsink.
  repeat split. open_player p. cbn in Hinit. now subst init.
Qed.


Lemma uint32_of_float_small (z : Z) :
  0 <= z < 2 ^ 32 -> uint32_of_float z = z.
Proof. intros range. unfold uint32_of_float. now apply Z.mod_small. Qed.

Lemma int32_cast_small (z : Z) :
  - 2 ^ 31 <= z < 2 ^ 31 -> int32_cast z = z.
Proof. intros range. unfold int32_cast. rewrite Z.mod_small; lia. Qed.

Lemma float_of_int_exact (z : Z) :
  - 2 ^ 24 < z < 2 ^ 24 -> float_of_int z = z.
Proof.
  intros range. unfold float_of_int.
  destruct (Z.ltb_spec (Z.abs z) (2 ^ 24)); [reflexivity|lia].
Qed.

Lemma display_size_default (size : Size) :
  Width size = 0 \/ Height size = 0 -> display_size size = (640, 480).
Proof.
  unfold display_size. intros [-> | ->]; cbn; [reflexivity|].
  now rewrite andb_false_r.
Qed.

Lemma display_size_stored (size : Size) :
  0 < Width size < 2 ^ 32 -> 0 < Height size < 2 ^ 32 ->
  display_size size = (Width size, Height size).
Proof.
  intros w h. unfold display_size.
  destruct (Z.eqb_spec (Width size) 0); [lia|].
  destruct (Z.eqb_spec (Height size) 0); [lia|]. cbn.
  rewrite !uint32_of_float_small by lia. reflexivity.
Qed.


(** C9 (amended).  The window-geometry refresh stores the width and
    height of the window rectangle whenever the rectangle can be read,
    degenerate or not (each side is the [int] difference converted to
    [float], the difference itself below [2^24]); when the rectangle
    cannot be read the stored size stays.  (640, 480) is never stored: it
    is what the engine's [OnWindowUpdate] receives while a stored side is
    zero.  The refresh sends the engine that one call and changes no other
    member. *)
Theorem C9_window_geometry_refresh p (rect : option RECT) :
  let size := refreshed_size rect (m_windowSize p) in
  let display := display_size size in
  exists p',
    UpdateVideoSize rect p =
      (Ok tt p', [EngineOnWindowUpdate (fst display) (snd display)])
    /\ m_windowSize p' = size
    /\ (rect = None -> m_windowSize p' = m_windowSize p)
    /\ (forall r, rect = Some r ->
          m_windowSize p' =
            {| Width := float_of_int (int32_cast (right r - left r));
               Height := float_of_int (int32_cast (bottom r - top r)) |})
    /\ (forall r, rect = Some r ->
          0 <= right r - left r < 2 ^ 24 ->
          0 <= bottom r - top r < 2 ^ 24 ->
          m_windowSize p' =
            {| Width := right r - left r; Height := bottom r - top r |})
    /\ (Width size = 0 \/ Height size = 0 -> display = (640, 480))
    /\ m_mediaEngineWrapper p' =
         media.OnWindowUpdate (fst display) (snd display)
           (m_mediaEngineWrapper p)
    /\ m_valid p' = m_valid p
    /\ isInitialized p' = isInitialized p
    /\ _eventSink p' = _eventSink p
    /\ _eventChannel p' = _eventChannel p
    /\ _textureRegistry p' = _textureRegistry p
    /\ _textureId p' = _textureId p
    /\ m_descriptor p' = m_descriptor p.
Proof.
  cbn zeta. rewrite UpdateVideoSize_eq. cbn zeta.
  eexists. split; [reflexivity|].
  split; [reflexivity|].
  split; [now intros ->|].
  split; [now intros r ->|].
  split.
  { intros r -> w h. cbn.
    rewrite !int32_cast_small, !float_of_int_exact by lia. reflexivity. }
  split; [apply display_size_default|].
  repeat split.
Qed.

(** *** Sessions *)

Lemma count_event_app (n : string) (a b : list Effect) :
  count_event n (a ++ b) = (count_event n a + count_event n b)%nat.
Proof.
  unfold count_event.
  now rewrite sink_events_app, filter_app, length_app.
Qed.

(** A call changes the initialized flag only by setting it, and only a
    call that signals readiness does. *)
Lemma step_flag (i : Input) p :
  match player_after (step i p) with
  | Some p' => isInitialized p' = isInitialized p || signals_ready i
  | None => True
  end.
Proof.
  destruct i as [[ | error hr | [|] | ] | | | w h rect | | | | | | | ];
    cbn [step callback signals_ready media.is_HAVE_NOTHING negb].
  - rewrite OnMediaInitialized_eq. cbn. now rewrite orb_true_r.
  - cbn. now rewrite orb_false_r.
  - rewrite OnMediaStateChange_nothing_eq. cbn. now rewrite orb_false_r.
  - rewrite OnMediaStateChange_enough_eq. cbn. now rewrite orb_true_r.
  - rewrite OnPlaybackEnded_eq. cbn. now rewrite orb_false_r.
  - cbn. now rewrite orb_false_r.
  - cbn. now rewrite orb_false_r.
  - unfold bind. rewrite ObtainDescriptorCallback_eq.
    destruct (media.UpdateSurfaceDescriptor _ _ _ _) as [[e' d'] called].
    destruct called, (_textureRegistry p); cbn; now rewrite ?orb_false_r.
  - cbn. now rewrite orb_false_r.
  - open_player p. now destruct init.
  - cbn. now rewrite orb_false_r.
  - cbn. now rewrite orb_false_r.
  - cbn. now rewrite orb_false_r.
  - cbn. now rewrite orb_false_r.
  - cbn. now rewrite orb_false_r.
Qed.

(** The initialized events of one call: one, when the call signals
    readiness to a session that is not initialized and has a listener. *)
Lemma step_count (i : Input) p :
  count_event "initialized" (snd (step i p)) =
  match _eventSink p with
  | Some _ =>
      if signals_ready i && negb (isInitialized p) then 1%nat else 0%nat
  | None => 0%nat
  end.
Proof.
  destruct i as [[ | error hr | [|] | ] | | | w h rect | | | | | | | ];
    cbn [step callback signals_ready media.is_HAVE_NOTHING negb andb].
  - rewrite OnMediaInitialized_eq. unfold emit.
    destruct (isInitialized p), (_eventSink p); reflexivity.
  - now destruct (_eventSink p).
  - rewrite OnMediaStateChange_nothing_eq. unfold emit.
    destruct (_eventSink p); reflexivity.
  - rewrite OnMediaStateChange_enough_eq. unfold emit.
    destruct (isInitialized p), (_eventSink p); reflexivity.
  - rewrite OnPlaybackEnded_eq. unfold emit.
    destruct (_eventSink p); reflexivity.
  - now destruct (_eventSink p).
  - now destruct (_eventSink p).
  - unfold bind. rewrite ObtainDescriptorCallback_eq.
    destruct (media.UpdateSurfaceDescriptor _ _ _ _) as [[e' d'] called].
    destruct called, (_textureRegistry p), (_eventSink p); reflexivity.
  - now destruct (_eventSink p).
  - rewrite Dispose_eq.
    destruct (isInitialized p), (_eventSink p); reflexivity.
  - now destruct (_eventSink p).
  - now destruct (_eventSink p).
  - now destruct (_eventSink p).
  - now destruct (_eventSink p).
  - now destruct (_eventSink p).
Qed.

Lemma run_cons (i : Input) (rest : list Input) p :
  snd (run (i :: rest) p) =
  snd (step i p) ++
  match player_after (step i p) with
  | Some p' => snd (run rest p')
  | None => []
  end.
Proof.
  cbn [run]. unfold bind, player_after.
  destruct (step i p) as [[[] p'|] tr]; cbn.
  - now destruct (run rest p').
  - now rewrite app_nil_r.
Qed.

Lemma step_event_is_transition (i : Input) p :
  (count_event "initialized" (snd (step i p)) <=
   if turns_initialized (step i) p then 1 else 0)%nat.
Proof.
  rewrite step_count. unfold turns_initialized.
  pose proof (step_flag i p) as flag.
  destruct (_eventSink p); [|lia].
  destruct (signals_ready i) eqn:ready; [|cbn; lia].
  destruct (isInitialized p) eqn:init; [cbn; lia|].
  destruct (player_after (step i p)) as [p'|] eqn:after.
  - rewrite flag. cbn. lia.
  - exfalso. clear flag. revert after.
    destruct i as [[ | error hr | [|] | ] | | | | | | | | | | ];
      try discriminate ready; cbn [step callback].
    + now rewrite OnMediaInitialized_eq.
    + now rewrite OnMediaStateChange_enough_eq.
Qed.

Lemma transitions_bound (inputs : list Input) p :
  (transitions inputs p <= if isInitialized p then 0 else 1)%nat.
Proof.
  revert p. induction inputs as [|i rest IH]; intro p; cbn [transitions].
  - destruct (isInitialized p); lia.
  - unfold turns_initialized. pose proof (step_flag i p) as flag.
    destruct (player_after (step i p)) as [p'|].
    + specialize (IH p'). rewrite flag in *.
      destruct (isInitialized p), (signals_ready i); cbn in *; lia.
    + destruct (isInitialized p); lia.
Qed.

Lemma run_events_are_transitions (inputs : list Input) p :
  (count_event "initialized" (snd (run inputs p)) <= transitions inputs p)%nat.
Proof.
  revert p. induction inputs as [|i rest IH]; intro p.
  - cbn. lia.
  - rewrite run_cons, count_event_app. cbn [transitions].
    pose proof (step_event_is_transition i p).
    destruct (player_after (step i p)) as [p'|].
    + specialize (IH p'). lia.
    + cbn. lia.
Qed.

Lemma run_without_ready_signal (inputs : list Input) p :
  existsb signals_ready inputs = false ->
  count_event "initialized" (snd (run inputs p)) = 0%nat.
Proof.
  revert p. induction inputs as [|i rest IH]; intros p quiet.
  - reflexivity.
  - cbn [existsb] in quiet. apply orb_false_elim in quiet as [qi qrest].
    rewrite run_cons, count_event_app, step_count, qi.
    destruct (player_after (step i p)) as [p'|].
    + rewrite (IH p' qrest). now destruct (_eventSink p).
    + now destruct (_eventSink p).
Qed.

(** C1.  In every session, whatever the calls and from whatever state:
    the initialized flag turns from false to true at most once; it never
    turns back; every initialized event is delivered by a call that makes
    that turn, so at most one is delivered; and none is delivered by a
    sequence of calls that holds neither [onInitialized] nor a buffering
    callback other than [HAVE_NOTHING] (applied to the prefixes of a
    session: no initialized event comes before such a callback). *)
Theorem C1_initialized_at_most_once (inputs : list Input) p :
  let tr := snd (run inputs p) in
  (transitions inputs p <= 1)%nat
  /\ (forall i q q',
        player_after (step i q) = Some q' ->
        isInitialized q = true -> isInitialized q' = true)
  /\ (forall i q,
        (count_event "initialized" (snd (step i q)) <=
         if turns_initialized (step i) q then 1 else 0)%nat)
  /\ (count_event "initialized" tr <= transitions inputs p)%nat
  /\ (count_event "initialized" tr <= 1)%nat
  /\ (existsb signals_ready inputs = false ->
       count_event "initialized" tr = 0%nat).
Proof.
  cbn zeta.
  pose proof (transitions_bound inputs p) as bound.
  pose proof (run_events_are_transitions inputs p) as events.
  split; [destruct (isInitialized p); lia|].
  split.
  { intros i q q' after init. pose proof (step_flag i q) as flag.
    rewrite after, init in flag. exact flag. }
  split; [apply step_event_is_transition|].
  split; [exact events|].
  split; [destruct (isInitialized p); lia|].
  apply run_without_ready_signal.
Qed.

(** No callback reads the validity flag or the event channel: with other
    values in those two members it does the same. *)
Lemma callback_ignores_validity (cb : Callback) (valid : bool)
  (channel : option EventChannel) p :
  callback cb (with_valid valid (with_eventChannel channel p)) =
  map_player (fun q => with_valid valid (with_eventChannel channel q))
             (callback cb p).
Proof.
  destruct cb as [ | error hr | [|] | ]; cbn [callback].
  - rewrite !OnMediaInitialized_eq. destruct p; reflexivity.
  - destruct p; reflexivity.
  - rewrite !OnMediaStateChange_nothing_eq. destruct p; reflexivity.
  - rewrite !OnMediaStateChange_enough_eq. destruct p; reflexivity.
  - rewrite !OnPlaybackEnded_eq. destruct p; reflexivity.
Qed.

(** C2 (amended).  [Dispose] pauses the engine when the session is
    initialized and releases the event channel; it leaves the validity
    flag (cleared by the destructor only), the initialized flag and the
    listener as they were.  No callback consults the validity flag or the
    channel, so a callback that arrives after [Dispose] is acted upon as
    on a live session: [onInitialized] seeks to 0 and, on a session not
    yet initialized, sets the flag and sends initialized; the buffering
    callbacks and [onPlaybackEnded] send their events to the listener
    still attached; [onError] logs. *)
Theorem C2_callbacks_after_dispose p :
  let pd :=
    with_eventChannel None
      (if isInitialized p
       then with_engine (media.Pause (m_mediaEngineWrapper p)) p
       else p) in
  let e := m_mediaEngineWrapper pd in
  Dispose p = (Ok tt pd, if isInitialized p then [EnginePause] else [])
  /\ m_valid pd = m_valid p
  /\ isInitialized pd = isInitialized p
  /\ _eventSink pd = _eventSink p
  /\ (forall cb valid channel q,
        callback cb (with_valid valid (with_eventChannel channel q)) =
        map_player (fun q' => with_valid valid (with_eventChannel channel q'))
                   (callback cb q))
  /\ callback onInitialized pd =
       (Ok tt (with_isInitialized true
                 (with_engine (media.SeekTo 0 e) pd)),
        EngineSeekTo 0 ::
          if isInitialized p then []
          else emit p (initialized_event (media.SeekTo 0 e)))
  /\ callback (onBufferingStateChanged media.HAVE_NOTHING) pd =
       (Ok tt pd,
        emit p (buffering_event true) ++
        emit p (bufferingUpdate_event
                  (map range_value (media.GetBufferedRanges e))))
  /\ callback (onBufferingStateChanged media.HAVE_ENOUGH) pd =
       (Ok tt (with_isInitialized true pd),
        (if isInitialized p then [] else emit p (initialized_event e)) ++
        emit p (buffering_event false))
  /\ callback onPlaybackEnded pd = (Ok tt pd, emit p completed_event)
  /\ (forall error hr,
        callback (onError error hr) pd = (Ok tt pd, [LogHr hr error])).
Proof.
  cbn zeta. split; [apply Dispose_eq|].
  split; [open_player p; now destruct init|].
  split; [open_player p; now destruct init|].
  split; [open_player p; now destruct init|].
  split; [intros; apply callback_ignores_validity|].
  cbn [callback].
  rewrite OnMediaInitialized_eq, OnMediaStateChange_nothing_eq,
    OnMediaStateChange_enough_eq, OnPlaybackEnded_eq.
  open_player p. destruct init; repeat split.
Qed.

End Claims.

(** ** The scenarios of the spec, on the stub engine *)

(** Scenario 1: new session, listener attached, [HAVE_NOTHING]: one
    bufferingStart (and the bufferingUpdate), session not initialized. *)
Example scenario_1 :
  run [HostInit 1 5; Listen 7;
       FromEngine (onBufferingStateChanged media.HAVE_NOTHING)] session0 =
  (Ok tt listened0,
   [SinkSuccess 7 (buffering_event true);
    SinkSuccess 7
      (bufferingUpdate_event
         [EncodableList [EInt64 0; EInt64 2500];
          EncodableList [EInt64 4000; EInt64 6000]])])
  /\ isInitialized listened0 = false.
Proof. split; reflexivity. Qed.

(** Scenario 2: then [HAVE_ENOUGH]: initialized with the stub's duration
    and size, then bufferingEnd; the session is initialized. *)
Example scenario_2 :
  callback (onBufferingStateChanged media.HAVE_ENOUGH) listened0 =
  (Ok tt initialized0,
   [SinkSuccess 7
      (EncodableMap [(EString "event", EString "initialized");
                     (EString "duration", EInt64 10000);
                     (EString "width", EInt32 1280);
                     (EString "height", EInt32 720)]);
    SinkSuccess 7 (buffering_event false)])
  /\ isInitialized initialized0 = true.
Proof. split; reflexivity. Qed.

(** Scenario 3: a 1920x1080 frame request while the window rectangle
    cannot be read: the descriptor is 1920x1080, the engine is resized to
    640x480. *)
Example scenario_3 :
  fst (ObtainDescriptorCallback 1920 1080 None listened0) =
    Ok {| handle := 0; width := 1920; height := 1080 |}
       (with_engine (media.OnWindowUpdate 640 480 stub0)
          (with_descriptor {| handle := 0; width := 1920; height := 1080 |}
             listened0))
  /\ snd (ObtainDescriptorCallback 1920 1080 None listened0) =
       [EngineUpdateSurfaceDescriptor 1920 1080;
        MarkTextureFrameAvailable 1 5;
        EngineOnWindowUpdate 640 480].
Proof. split; reflexivity. Qed.

(** Scenario 4: detach, end of playback, attach, end of playback. *)
Example scenario_4 :
  run [Cancel; FromEngine onPlaybackEnded] listened0 =
    (Ok tt (with_eventSink None listened0), [])
  /\ run [Cancel; FromEngine onPlaybackEnded;
          Listen 8; FromEngine onPlaybackEnded] listened0 =
       (Ok tt (with_eventSink (Some 8%nat) listened0),
        [SinkSuccess 8 completed_event]).
Proof. split; reflexivity. Qed.

(** The conversion to [float] rounds above [2^24]. *)
Example float_of_int_rounds :
  float_of_int 16777217 = 16777216
  /\ float_of_int 16777219 = 16777220
  /\ float_of_int (-16777217) = -16777216
  /\ float_of_int 2147483647 = 2147483648.
Proof. repeat split. Qed.

(** ** Instances of the theorems, and where the spec and the code part *)

(** C10 on the stub, whose media time is the last seek target: seeking to
    1234. *)
Lemma C10_witness :
  bind (SeekTo 1234) (fun _ => GetPosition) listened0 =
    (Ok 1234
        (with_engine (media.SeekTo 1234 (m_mediaEngineWrapper listened0))
           listened0),
     [EngineSeekTo 1234])
  /\ SeekTo 1234 listened0 =
       (Ok tt
           (with_engine (media.SeekTo 1234 (m_mediaEngineWrapper listened0))
              listened0),
        [EngineSeekTo 1234])
  /\ GetPosition listened0 =
       (Ok (int64_cast (media.GetMediaTime (m_mediaEngineWrapper listened0)))
           listened0, []).
Proof.
  apply (C10_seek_then_position listened0 (T := 1234)).
  - intros t e. reflexivity.
  - lia.
Defined.


(** C3 (amended) on the uninitialized session with listener 7. *)
Lemma C3_witness :
  callback (onBufferingStateChanged media.HAVE_NOTHING) listened0 =
    (Ok tt listened0,
     [SinkSuccess 7 (buffering_event true);
      SinkSuccess 7
        (bufferingUpdate_event
           (map range_value
                (media.GetBufferedRanges (m_mediaEngineWrapper listened0))))])
  /\ callback (onBufferingStateChanged media.HAVE_ENOUGH) listened0 =
       (Ok tt (with_isInitialized true listened0),
        [SinkSuccess 7 (initialized_event (m_mediaEngineWrapper listened0));
         SinkSuccess 7 (buffering_event false)]).
Proof.
  apply (C3_buffering_events_before_initialization listened0 (listener := 7));
    reflexivity.
Defined.

(** C4 (amended) on the initialized session with listener 7. *)
Lemma C4_witness :
  callback (onBufferingStateChanged media.HAVE_NOTHING) initialized0 =
    (Ok tt initialized0,
     [SinkSuccess 7 (buffering_event true);
      SinkSuccess 7
        (bufferingUpdate_event
           (map range_value
                (media.GetBufferedRanges
                   (m_mediaEngineWrapper initialized0))))])
  /\ count_event "bufferingStart"
       (snd (callback (onBufferingStateChanged media.HAVE_NOTHING)
               initialized0)) = 1%nat
  /\ count_event "bufferingEnd"
       (snd (callback (onBufferingStateChanged media.HAVE_NOTHING)
               initialized0)) = 0%nat
  /\ callback (onBufferingStateChanged media.HAVE_ENOUGH) initialized0 =
       (Ok tt initialized0, [SinkSuccess 7 (buffering_event false)])
  /\ count_event "bufferingEnd"
       (snd (callback (onBufferingStateChanged media.HAVE_ENOUGH)
               initialized0)) = 1%nat.
Proof.
  apply (C4_buffering_events_after_initialization initialized0 (listener := 7));
    reflexivity.
Defined.

(** C2, as stated, fails on the code.  After [Dispose] the validity flag is
    still set and the listener still attached; [onInitialized] then seeks
    the engine and sends initialized, and [onPlaybackEnded] sends completed:
    neither is dropped. *)
Lemma C2_counterexample :
  run [HostInit 1 5; Listen 7; HostDispose] session0 = (Ok tt disposed0, [])
  /\ m_valid disposed0 = true
  /\ callback onInitialized disposed0 =
       (Ok tt (with_isInitialized true disposed0),
        [EngineSeekTo 0; SinkSuccess 7 (initialized_event stub0)])
  /\ ~ dropped onInitialized disposed0
  /\ callback onPlaybackEnded disposed0 =
       (Ok tt disposed0, [SinkSuccess 7 completed_event])
  /\ ~ dropped onPlaybackEnded disposed0.
Proof.
  repeat split; try reflexivity; unfold dropped; intro same;
    vm_compute in same; discriminate same.
Qed.

(** C3, as stated, fails on the code.  On a session that is not
    initialized, the first [HAVE_NOTHING] callback already delivers a
    bufferingStart, and the first other buffering callback a
    bufferingEnd. *)
Lemma C3_counterexample :
  isInitialized listened0 = false
  /\ sink_events
       (snd (callback (onBufferingStateChanged media.HAVE_NOTHING)
               listened0)) =
     [buffering_event true;
      bufferingUpdate_event
        [EncodableList [EInt64 0; EInt64 2500];
         EncodableList [EInt64 4000; EInt64 6000]]]
  /\ count_event "bufferingStart"
       (snd (callback (onBufferingStateChanged media.HAVE_NOTHING)
               listened0)) = 1%nat
  /\ count_event "bufferingEnd"
       (snd (callback (onBufferingStateChanged media.HAVE_ENOUGH)
               listened0)) = 1%nat.
Proof. repeat split. Qed.

(** C4, as stated, fails on the code.  The session below is initialized and
    has received no buffering callback at all, so the spec's bufferingFlag
    is false; a [HAVE_ENOUGH] callback still delivers a bufferingEnd. *)
Lemma C4_counterexample :
  run [HostInit 1 5; Listen 7; FromEngine onInitialized] session0 =
    (Ok tt initialized0,
     [EngineSeekTo 0; SinkSuccess 7 (initialized_event stub0)])
  /\ isInitialized initialized0 = true
  /\ spec_bufferingFlag
       [HostInit 1 5; Listen 7; FromEngine onInitialized] false = false
  /\ callback (onBufferingStateChanged media.HAVE_ENOUGH) initialized0 =
       (Ok tt initialized0, [SinkSuccess 7 (buffering_event false)])
  /\ count_event "bufferingEnd"
       (snd (callback (onBufferingStateChanged media.HAVE_ENOUGH)
               initialized0)) = 1%nat.
Proof. repeat split. Qed.

(** C8, as stated, fails on the code: a trigger after the listener is
    attached again does not always deliver exactly one event.  When
    [onInitialized] arrives while the listener is detached, its initialized
    event is dropped for good: after the listener is back, a second
    [onInitialized] delivers nothing.  And a [HAVE_NOTHING] buffering
    callback after the listener is back delivers two events. *)
Lemma C8_counterexample :
  run [HostInit 1 5; Listen 7] session0 = (Ok tt listened0, [])
  /\ sink_events
       (snd (run [Cancel; FromEngine onInitialized;
                  Listen 8; FromEngine onInitialized] listened0)) = []
  /\ snd (run [Cancel; FromEngine onInitialized;
               Listen 8; FromEngine onInitialized] listened0) =
       [EngineSeekTo 0; EngineSeekTo 0]
  /\ sink_events
       (snd (run [Cancel; Listen 8;
                  FromEngine (onBufferingStateChanged media.HAVE_NOTHING)]
                 listened0)) =
     [buffering_event true;
      bufferingUpdate_event
        [EncodableList [EInt64 0; EInt64 2500];
         EncodableList [EInt64 4000; EInt64 6000]]]
  /\ List.length
       (sink_events
          (snd (run [Cancel; Listen 8;
                     FromEngine (onBufferingStateChanged media.HAVE_NOTHING)]
                    listened0))) = 2%nat.
Proof. repeat split. Qed.

(** C9, as stated, fails on the code.  With 800x600 stored by an earlier
    frame request, a refresh that reads a rectangle of no width stores that
    rectangle's size, 0x300, over it (and resizes the engine to 640x480). *)
Lemma C9_counterexample :
  run [FrameRequest 1920 1080 (Some rect_800x600)] listened0 =
    (Ok tt windowed0,
     [EngineUpdateSurfaceDescriptor 1920 1080;
      MarkTextureFrameAvailable 1 5;
      EngineOnWindowUpdate 800 600])
  /\ m_windowSize windowed0 = {| Width := 800; Height := 600 |}
  /\ UpdateVideoSize (Some rect_degenerate) windowed0 =
       (Ok tt
           (with_engine (media.OnWindowUpdate 640 480
                           (m_mediaEngineWrapper windowed0))
              (with_windowSize {| Width := 0; Height := 300 |} windowed0)),
        [EngineOnWindowUpdate 640 480])
  /\ {| Width := 0; Height := 300 |} <> m_windowSize windowed0.
Proof. repeat split. discriminate. Qed.

(** ** Further properties of the member functions *)

Section Members.

Context {E : Type} `{ME : media.MediaEngineWrapper E}.

Implicit Type p : VideoPlayer E.

(** What one call leaves in each member other than the engine and the
    initialized flag. *)
Lemma step_frame (i : Input) p :
  match player_after (step i p) with
  | Some p' =>
      m_valid p' = m_valid p
      /\ _eventSink p' =
           match i with
           | Listen events => Some events
           | Cancel => None
           | _ => _eventSink p
           end
      /\ _textureRegistry p' =
           match i with
           | HostInit registrar _ => Some registrar
           | _ => _textureRegistry p
           end
      /\ _textureId p' =
           match i with HostInit _ id => id | _ => _textureId p end
      /\ _eventChannel p' =
           match i with
           | HostInit _ id => Some (channel_of id)
           | HostDispose => None
           | _ => _eventChannel p
           end
      /\ m_windowSize p' =
           match i with
           | FrameRequest _ _ rect => refreshed_size rect (m_windowSize p)
           | _ => m_windowSize p
           end
      /\ (is_FrameRequest i = false -> m_descriptor p' = m_descriptor p)
  | None => True
  end.
Proof.
  destruct i as [[ | error hr | [|] | ] | | | w h rect | | | | | | | ];
    cbn [step callback is_FrameRequest].
  - rewrite OnMediaInitialized_eq. cbn. repeat split.
  - cbn. repeat split.
  - rewrite OnMediaStateChange_nothing_eq. cbn. repeat split.
  - rewrite OnMediaStateChange_enough_eq. cbn. repeat split.
  - rewrite OnPlaybackEnded_eq. cbn. repeat split.
  - cbn. repeat split.
  - cbn. repeat split.
  - unfold bind. rewrite ObtainDescriptorCallback_eq.
    destruct (media.UpdateSurfaceDescriptor _ _ _ _) as [[e' d'] called].
    destruct called, (_textureRegistry p) eqn:registry; cbn;
      rewrite ?registry; repeat split; discriminate.
  - cbn. repeat split.
  - open_player p. destruct init; cbn; repeat split.
  - cbn. repeat split.
  - cbn. repeat split.
  - cbn. repeat split.
  - cbn. repeat split.
  - cbn. repeat split.
Qed.

(** The only call that can crash is a frame request on a player that has
    no texture registrar. *)
Lemma step_crash (i : Input) p :
  player_after (step i p) = None ->
  is_FrameRequest i = true /\ _textureRegistry p = None.
Proof.
  destruct i as [[ | error hr | [|] | ] | | | w h rect | | | | | | | ];
    cbn [step callback is_FrameRequest]; try discriminate.
  - now rewrite OnMediaInitialized_eq.
  - now rewrite OnMediaStateChange_nothing_eq.
  - now rewrite OnMediaStateChange_enough_eq.
  - now rewrite OnPlaybackEnded_eq.
  - unfold bind. rewrite ObtainDescriptorCallback_eq.
    destruct (media.UpdateSurfaceDescriptor _ _ _ _) as [[e' d'] called].
    destruct called, (_textureRegistry p); cbn; try discriminate. auto.
  - now rewrite Dispose_eq.
Qed.

Lemma run_nil p : run [] p = (Ok tt p, []).
Proof. reflexivity. Qed.

Lemma run_player_cons (i : Input) (rest : list Input) p :
  player_after (run (i :: rest) p) =
  match player_after (step i p) with
  | Some p' => player_after (run rest p')
  | None => None
  end.
Proof.
  cbn [run]. unfold bind, player_after.
  destruct (step i p) as [[[] p'|] tr]; [|reflexivity].
  now destruct (run rest p') as [[[] p''|] tr'].
Qed.




Lemma no_sink_no_events (tr : list Effect) :
  (forall k event, ~ In (SinkSuccess k event) tr) -> sink_events tr = [].
Proof.
  induction tr as [|x tr IH]; intro none; [reflexivity|].
  destruct x; cbn; try (apply IH; intros k ev H; apply (none k ev); now right).
  exfalso. apply (none sink event). now left.
Qed.

Lemma step_delivers_to_listener (i : Input) p (k : EventSink)
  (event : EncodableValue) :
  In (SinkSuccess k event) (snd (step i p)) -> _eventSink p = Some k.
Proof.
  destruct i as [[ | error hr | [|] | ] | | | w h rect | | | | | | | ];
    cbn [step callback].
  - rewrite OnMediaInitialized_eq. unfold emit. cbn [snd].
    destruct (isInitialized p), (_eventSink p); cbn;
      intuition (try discriminate; congruence).
  - cbn. intuition discriminate.
  - rewrite OnMediaStateChange_nothing_eq. unfold emit. cbn [snd].
    destruct (_eventSink p); cbn; intuition (try discriminate; congruence).
  - rewrite OnMediaStateChange_enough_eq. unfold emit. cbn [snd].
    destruct (isInitialized p), (_eventSink p); cbn;
      intuition (try discriminate; congruence).
  - rewrite OnPlaybackEnded_eq. unfold emit. cbn [snd].
    destruct (_eventSink p); cbn; intuition (try discriminate; congruence).
  - cbn. intuition.
  - cbn. intuition.
  - unfold bind. rewrite ObtainDescriptorCallback_eq.
    destruct (media.UpdateSurfaceDescriptor _ _ _ _) as [[e' d'] called].
    destruct called, (_textureRegistry p); cbn; intuition discriminate.
  - cbn. intuition.
  - rewrite Dispose_eq. destruct (isInitialized p); cbn; intuition discriminate.
  - cbn. intuition discriminate.
  - cbn. intuition discriminate.
  - cbn. intuition discriminate.
  - cbn. intuition discriminate.
  - cbn. intuition.
Qed.

Lemma run_detached (inputs : list Input) p :
  _eventSink p = None ->
  existsb is_Listen inputs = false ->
  sink_events (snd (run inputs p)) = [].
Proof.
  revert p. induction inputs as [|i rest IH]; intros p detached quiet;
    [reflexivity|].
  cbn [existsb] in quiet. apply orb_false_elim in quiet as [qi qrest].
  rewrite run_cons, sink_events_app.
  rewrite (no_sink_no_events (snd (step i p))).
  2:{ intros k ev H. apply step_delivers_to_listener in H. congruence. }
  pose proof (step_frame i p) as frame.
  destruct (player_after (step i p)) as [p1|]; [|reflexivity].
  apply IH; [|exact qrest].
  destruct frame as (_ & sink & _). rewrite sink.
  destruct i; try exact detached; [discriminate qi|reflexivity].
Qed.

(** X2.  Events go to the listener that is attached when they are sent and
    to nobody else: whatever a call delivers, it delivers to the sink in
    [_eventSink] at that moment.  Once the listener is detached a session
    delivers nothing at all, through any number of calls, until a listener
    is attached again. *)
Theorem events_reach_only_the_attached_listener p :
  (forall i q k event,
      In (SinkSuccess k event) (snd (step i q)) -> _eventSink q = Some k)
  /\ (forall inputs,
        existsb is_Listen inputs = false ->
        sink_events (snd (run (Cancel :: inputs) p)) = []).
Proof.
  split; [intros i q k event; apply step_delivers_to_listener|].
  intros inputs quiet. rewrite run_cons. cbn.
  now apply run_detached.
Qed.

Lemma run_flag (inputs : list Input) p :
  match player_after (run inputs p) with
  | Some p' =>
      isInitialized p' = isInitialized p || existsb signals_ready inputs
  | None => True
  end.
Proof.
  revert p. induction inputs as [|i rest IH]; intro p.
  - cbn. now rewrite orb_false_r.
  - rewrite run_player_cons. pose proof (step_flag i p) as flag.
    destruct (player_after (step i p)) as [p1|]; [|exact I].
    specialize (IH p1).
    destruct (player_after (run rest p1)) as [p'|]; [|exact I].
    cbn [existsb]. rewrite IH, flag. now rewrite orb_assoc.
Qed.

(** X3.  A session is initialized exactly when it started initialized or
    has received a call that signals readiness ([onInitialized], or a
    buffering callback with a state other than [HAVE_NOTHING]): no other
    call sets the flag, [Dispose] does not reset it, and a [HAVE_NOTHING]
    callback after initialization does not take it back. *)
Theorem initialized_iff_ready_signal_received (inputs : list Input) p :
  match player_after (run inputs p) with
  | Some p' =>
      isInitialized p' = isInitialized p || existsb signals_ready inputs
  | None => True
  end.
Proof. apply run_flag. Qed.

(** X4.  Each member is written by its own calls only.  A call that
    returns leaves the listener as it was unless it is the channel's listen
    or cancel handler; the texture registrar and the texture id unless it
    is [Init]; the event channel unless it is [Init] or [Dispose]; the
    descriptor and the window size unless it is a frame request; the
    initialized flag unless it signals readiness. *)
Theorem members_are_written_by_their_own_calls (i : Input) p :
  match player_after (step i p) with
  | Some p' =>
      (is_Listen i || is_Cancel i = false -> _eventSink p' = _eventSink p)
      /\ (is_HostInit i = false ->
          _textureRegistry p' = _textureRegistry p
          /\ _textureId p' = _textureId p)
      /\ (is_HostInit i = false -> i <> HostDispose ->
          _eventChannel p' = _eventChannel p)
      /\ (is_FrameRequest i = false ->
          m_descriptor p' = m_descriptor p
          /\ m_windowSize p' = m_windowSize p)
      /\ (signals_ready i = false -> isInitialized p' = isInitialized p)
  | None => True
  end.
Proof.
  pose proof (step_frame i p) as frame. pose proof (step_flag i p) as flag.
  destruct (player_after (step i p)) as [p'|]; [|exact I].
  destruct frame as (_ & sink & registry & id & channel & size & desc).
  repeat split.
  - rewrite sink. destruct i; try reflexivity; discriminate.
  - rewrite registry. destruct i; try reflexivity; discriminate.
  - rewrite id. destruct i; try reflexivity; discriminate.
  - rewrite channel. destruct i; try reflexivity; try discriminate.
    congruence.
  - apply desc. assumption.
  - rewrite size. destruct i; try reflexivity; discriminate.
  - rewrite flag. intros ->. now rewrite orb_false_r.
Qed.

Lemma run_with_registrar (inputs : list Input) p :
  _textureRegistry p <> None ->
  exists p', run inputs p = (Ok tt p', snd (run inputs p)).
Proof.
  revert p. induction inputs as [|i rest IH]; intros p registrar.
  - now exists p.
  - pose proof (step_frame i p) as frame.
    pose proof (@step_crash i p) as crashes.
    cbn [run]. unfold bind.
    destruct (step i p) as [[[] p1|] tr]; cbn [player_after] in *.
    + destruct (IH p1) as [p' run_rest].
      { destruct frame as (_ & _ & registry & _). rewrite registry.
        destruct i; try exact registrar; discriminate. }
      rewrite run_rest. now exists p'.
    + destruct (crashes eq_refl) as [_ none]. contradiction.
Qed.

(** X5.  The only call that can crash is a frame request on a session that
    has no texture registrar.  [Init] provides one and no call takes it
    away, so from [Init] on a session never crashes, whatever is called and
    in whatever order ([Dispose] and calls after it included). *)
Theorem no_crash_once_Init_has_run p :
  (forall i q,
      player_after (step i q) = None ->
      is_FrameRequest i = true /\ _textureRegistry q = None)
  /\ (forall registrar textureId inputs,
        exists p',
          fst (run (HostInit registrar textureId :: inputs) p) = Ok tt p').
Proof.
  split; [intros i q; apply step_crash|].
  intros registrar textureId inputs. cbn [run step]. unfold bind.
  destruct (run_with_registrar inputs
              (with_textureRegistry (Some registrar)
                 (with_eventChannel (Some (channel_of textureId))
                    (with_textureId textureId p))))
    as [p' run_rest]; [discriminate|].
  exists p'. cbn. unfold channel_of in run_rest. now rewrite run_rest.
Qed.

(** X6.  A frame request on a session without texture registrar (before
    [Init]) crashes exactly when the engine signals an available frame:
    the engine has then updated the surface, but the descriptor is not
    stored, the window is not refreshed and the engine is not resized.
    When the engine signals nothing, the request completes. *)
Theorem frame_request_before_Init p (w h : Z) (rect : option RECT) :
  _textureRegistry p = None ->
  let updated :=
    media.UpdateSurfaceDescriptor (uint32_cast w) (uint32_cast h)
      (m_descriptor p) (m_mediaEngineWrapper p) in
  let update :=
    EngineUpdateSurfaceDescriptor (uint32_cast w) (uint32_cast h) in
  let display := display_size (refreshed_size rect (m_windowSize p)) in
  ObtainDescriptorCallback w h rect p =
    if snd updated
    then (Crash, [update])
    else (Ok (snd (fst updated))
             (with_engine
                (media.OnWindowUpdate (fst display) (snd display)
                   (fst (fst updated)))
                (with_windowSize (refreshed_size rect (m_windowSize p))
                   (with_descriptor (snd (fst updated)) p))),
          [update; EngineOnWindowUpdate (fst display) (snd display)]).
Proof.
  intros none. cbn zeta. rewrite ObtainDescriptorCallback_eq, none.
  destruct (media.UpdateSurfaceDescriptor _ _ _ _) as [[e' d'] called].
  now destruct called.
Qed.

Lemma notifications_app (a b : list Effect) :
  notifications (a ++ b) = notifications a ++ notifications b.
Proof.
  induction a as [|x a IH]; [reflexivity|].
  destruct x; cbn; now rewrite ?IH.
Qed.

Lemma step_notifications (i : Input) p :
  Forall (fun n => _textureRegistry p = Some (fst n) /\ _textureId p = snd n)
         (notifications (snd (step i p))).
Proof.
  destruct i as [[ | error hr | [|] | ] | | | w h rect | | | | | | | ];
    cbn [step callback]; try (cbn; constructor).
  - rewrite OnMediaInitialized_eq. unfold emit. cbn [snd].
    destruct (isInitialized p), (_eventSink p); cbn; constructor.
  - rewrite OnMediaStateChange_nothing_eq. unfold emit. cbn [snd].
    destruct (_eventSink p); cbn; constructor.
  - rewrite OnMediaStateChange_enough_eq. unfold emit. cbn [snd].
    destruct (isInitialized p), (_eventSink p); cbn; constructor.
  - rewrite OnPlaybackEnded_eq. unfold emit. cbn [snd].
    destruct (_eventSink p); cbn; constructor.
  - unfold bind. rewrite ObtainDescriptorCallback_eq.
    destruct (media.UpdateSurfaceDescriptor _ _ _ _) as [[e' d'] called].
    destruct called, (_textureRegistry p); cbn; repeat constructor.
  - rewrite Dispose_eq. destruct (isInitialized p); cbn; constructor.
Qed.

Lemma run_notifications (inputs : list Input) p (r : TextureRegistrar)
  (id : Z) :
  _textureRegistry p = Some r -> _textureId p = id ->
  existsb is_HostInit inputs = false ->
  Forall (fun n => n = (r, id)) (notifications (snd (run inputs p))).
Proof.
  revert p. induction inputs as [|i rest IH]; intros p registry tid quiet.
  - constructor.
  - cbn [existsb] in quiet. apply orb_false_elim in quiet as [qi qrest].
    rewrite run_cons, notifications_app. apply Forall_app. split.
    + eapply Forall_impl; [|apply step_notifications].
      intros [r' id'] [Hr Hid]. cbn in *. congruence.
    + pose proof (step_frame i p) as frame.
      destruct (player_after (step i p)) as [p1|]; [|constructor].
      destruct frame as (_ & _ & registry1 & id1 & _).
      apply IH; [| |exact qrest].
      * rewrite registry1. destruct i; try exact registry; discriminate.
      * rewrite id1. destruct i; try exact tid; discriminate.
Qed.

(** X7.  Frames are announced to the registrar [Init] was given, under the
    texture id [Init] was given: through a session with no second [Init],
    every [MarkTextureFrameAvailable] goes to that registrar with that
    id. *)
Theorem frames_are_announced_under_the_Init_texture p
  (registrar : TextureRegistrar) (textureId : Z) (inputs : list Input) :
  existsb is_HostInit inputs = false ->
  Forall (fun n => n = (registrar, textureId))
    (notifications (snd (run (HostInit registrar textureId :: inputs) p))).
Proof.
  intros quiet. rewrite run_cons. cbn.
  now apply run_notifications.
Qed.

(** X8.  [Play] resumes from the engine's current media time, not from
    zero: it asks the engine for the time and starts playing from there.
    On an engine whose media time is the last seek target, a seek to [T]
    followed by [Play] starts playing from [T]. *)
Theorem Play_resumes_from_media_time p (T : Z) :
  (forall t e, media.GetMediaTime (media.SeekTo t e) = t) ->
  let e := m_mediaEngineWrapper p in
  Play p =
    (Ok tt (with_engine (media.StartPlayingFrom (media.GetMediaTime e) e) p),
     [EngineStartPlayingFrom (media.GetMediaTime e)])
  /\ run [HostSeekTo T; HostPlay] p =
       (Ok tt (with_engine
                 (media.StartPlayingFrom T (media.SeekTo T e)) p),
        [EngineSeekTo T; EngineStartPlayingFrom T]).
Proof.
  intros last_seek. open_player p. cbn zeta. split; [reflexivity|].
  run_member. cbn [run]. run_member. now rewrite last_seek.
Qed.

(** The [float] of an [int] stays within the [int] range (its upper end
    rounds up to [2^31]). *)
Lemma float_of_int_range (n : Z) :
  - 2 ^ 31 <= n <= 2 ^ 31 -> - 2 ^ 31 <= float_of_int n <= 2 ^ 31.
Proof.
  intros range. unfold float_of_int. cbv zeta.
  destruct (Z.ltb_spec (Z.abs n) (2 ^ 24)) as [small|large]; [lia|].
  assert (Z.abs n = 2 ^ 31 \/ Z.abs n < 2 ^ 31) as [top|below] by lia.
  { assert (n = 2 ^ 31 \/ n = - 2 ^ 31) as [-> | ->] by lia;
      vm_compute; split; discriminate. }
  assert (0 < Z.abs n) as positive by lia.
  assert (24 <= Z.log2 (Z.abs n)) as lower
      by (apply Z.log2_le_pow2; [exact positive|exact large]).
  assert (Z.log2 (Z.abs n) < 31) as upper
      by (apply Z.log2_lt_pow2; [exact positive|exact below]).
  pose proof (Z.log2_spec (Z.abs n) positive) as [_ under].
  set (e := Z.log2 (Z.abs n) - 23) in *.
  replace (Z.succ (Z.log2 (Z.abs n))) with (24 + e) in under by lia.
  assert (0 < e <= 7) as exponent by lia.
  rewrite Z.pow_add_r in under by lia.
  assert (0 < 2 ^ e) as scale by (apply Z.pow_pos_nonneg; lia).
  assert (2 ^ 24 * 2 ^ e <= 2 ^ 31) as fits.
  { replace (2 ^ 31) with (2 ^ 24 * 2 ^ 7) by reflexivity.
    apply Z.mul_le_mono_nonneg_l; [lia|].
    apply Z.pow_le_mono_r; lia. }
  pose proof (Z.div_mod (Z.abs n) (2 ^ e) ltac:(lia)) as split_n.
  pose proof (Z.mod_pos_bound (Z.abs n) (2 ^ e) scale) as remainder.
  set (q := Z.abs n / 2 ^ e) in *.
  set (r := Z.abs n mod 2 ^ e) in *.
  assert (q < 2 ^ 24) as mantissa by nia.
  assert (0 <= q) as mantissa0 by nia.
  match goal with
  | |- context [if ?tie then q + 1 else q] =>
      set (q' := if tie then q + 1 else q)
  end.
  assert (0 <= q' <= 2 ^ 24) as rounded
      by (subst q'; destruct (_ || _); lia).
  assert (0 <= q' * 2 ^ e <= 2 ^ 31) as magnitude by nia.
  destruct (Z.sgn_spec n) as [[_ ->]|[[_ ->]|[_ ->]]]; lia.
Qed.

(** The [float] of a non-negative [int] is not negative. *)
Lemma float_of_int_nonneg (n : Z) :
  0 <= n <= 2 ^ 31 -> 0 <= float_of_int n <= 2 ^ 31.
Proof.
  intros range. split; [|apply float_of_int_range; lia].
  unfold float_of_int. cbv zeta.
  destruct (Z.ltb_spec (Z.abs n) (2 ^ 24)) as [small|large]; [lia|].
  assert (0 < n) as positive by lia.
  rewrite (Z.sgn_pos n positive), Z.mul_1_l.
  assert (24 <= Z.log2 (Z.abs n)) as lower
      by (apply Z.log2_le_pow2; [lia|exact large]).
  set (e := Z.log2 (Z.abs n) - 23).
  assert (0 < 2 ^ e) as scale by (apply Z.pow_pos_nonneg; lia).
  assert (0 <= Z.abs n / 2 ^ e) as mantissa by (apply Z.div_pos; lia).
  apply Z.mul_nonneg_nonneg; [|lia].
  destruct (_ || _); lia.
Qed.

Lemma refreshed_size_nonneg (rect : option RECT) (size : Size) :
  nonneg_sized size ->
  match rect with Some r => rect_in_range r | None => True end ->
  nonneg_sized (refreshed_size rect size).
Proof.
  intros sized ranged. destruct rect as [rect|]; [|exact sized].
  destruct ranged as [wide high].
  split; cbn; rewrite int32_cast_small by lia; apply float_of_int_nonneg; lia.
Qed.

(** With sides from 0 to [2^31] the conversions to [uint32_t] are exact:
    the size sent is (640, 480) when a side is zero and the stored size
    otherwise. *)
Lemma display_size_nonneg (size : Size) :
  nonneg_sized size ->
  display_size size =
  if (Width size =? 0) || (Height size =? 0)
  then (640, 480)
  else (Width size, Height size).
Proof.
  intros [w h]. unfold display_size.
  destruct (Z.eqb_spec (Width size) 0); [reflexivity|].
  destruct (Z.eqb_spec (Height size) 0); [reflexivity|]. cbn.
  now rewrite !uint32_of_float_small by lia.
Qed.

Lemma display_size_sides (size : Size) :
  nonneg_sized size ->
  1 <= fst (display_size size) <= 2 ^ 31
  /\ 1 <= snd (display_size size) <= 2 ^ 31.
Proof.
  intros sized. rewrite (display_size_nonneg sized). destruct sized as [w h].
  destruct (Z.eqb_spec (Width size) 0); [cbn; lia|].
  destruct (Z.eqb_spec (Height size) 0); cbn; lia.
Qed.

Lemma window_updates_app (a b : list Effect) :
  window_updates (a ++ b) = window_updates a ++ window_updates b.
Proof.
  induction a as [|x a IH]; [reflexivity|].
  destruct x; cbn; now rewrite ?IH.
Qed.

Lemma step_window_updates (i : Input) p :
  window_updates (snd (step i p)) =
  match i with
  | FrameRequest w h rect =>
      let updated :=
        media.UpdateSurfaceDescriptor (uint32_cast w) (uint32_cast h)
          (m_descriptor p) (m_mediaEngineWrapper p) in
      match snd updated, _textureRegistry p with
      | true, None => []
      | _, _ => [display_size (refreshed_size rect (m_windowSize p))]
      end
  | _ => []
  end.
Proof.
  destruct i as [[ | error hr | [|] | ] | | | w h rect | | | | | | | ];
    cbn [step callback]; try reflexivity.
  - rewrite OnMediaInitialized_eq. unfold emit. cbn [snd].
    now destruct (isInitialized p), (_eventSink p).
  - rewrite OnMediaStateChange_nothing_eq. unfold emit. cbn [snd].
    now destruct (_eventSink p).
  - rewrite OnMediaStateChange_enough_eq. unfold emit. cbn [snd].
    now destruct (isInitialized p), (_eventSink p).
  - rewrite OnPlaybackEnded_eq. unfold emit. cbn [snd].
    now destruct (_eventSink p).
  - unfold bind. rewrite ObtainDescriptorCallback_eq. cbn zeta.
    destruct (media.UpdateSurfaceDescriptor _ _ _ _) as [[e' d'] called].
    destruct (display_size _) as [dw dh].
    now destruct called, (_textureRegistry p).
  - rewrite Dispose_eq. now destruct (isInitialized p).
Qed.

Lemma run_window_updates (inputs : list Input) p :
  nonneg_sized (m_windowSize p) ->
  frames_in_range inputs ->
  Forall (fun wh => 1 <= fst wh <= 2 ^ 31 /\ 1 <= snd wh <= 2 ^ 31)
         (window_updates (snd (run inputs p))).
Proof.
  revert p. induction inputs as [|i rest IH]; intros p sized ranged.
  - constructor.
  - apply Forall_cons_iff in ranged as [ranged_i ranged_rest].
    assert (forall w h rect, i = FrameRequest w h rect ->
              nonneg_sized (refreshed_size rect (m_windowSize p)))
      as refreshed.
    { intros w h rect ->. apply refreshed_size_nonneg; [exact sized|].
      destruct rect; [exact ranged_i|exact I]. }
    rewrite run_cons, window_updates_app. apply Forall_app. split.
    + rewrite step_window_updates. destruct i; try constructor.
      cbn zeta. destruct (snd _), (_textureRegistry p);
        repeat constructor; eapply display_size_sides, refreshed; reflexivity.
    + pose proof (step_frame i p) as frame.
      destruct (player_after (step i p)) as [p1|]; [|constructor].
      apply IH; [|exact ranged_rest].
      destruct frame as (_ & _ & _ & _ & _ & size & _).
      rewrite size. destruct i; try exact sized.
      eapply refreshed. reflexivity.
Qed.

(** X9.  The engine is never resized to a zero width or a zero height.
    Take window rectangles whose sides are not negative and fit an [int],
    and a stored window size with sides from 0 to [2^31] (a new session
    stores the zero size); every conversion of the source is then defined
    and exact.  The window refresh sends the engine exactly one
    [OnWindowUpdate]: with (640, 480) when a side of the size it has just
    stored is zero, and with that stored size otherwise; a frame request
    on a session with a registrar sends that one size and no other.  So
    through any such session every size the engine receives has both sides
    from 1 to [2^31]. *)
Theorem engine_is_never_resized_to_zero (inputs : list Input) p :
  nonneg_sized (m_windowSize p) ->
  frames_in_range inputs ->
  Forall (fun wh => 1 <= fst wh <= 2 ^ 31 /\ 1 <= snd wh <= 2 ^ 31)
         (window_updates (snd (run inputs p)))
  /\ (forall q rect,
        let size := refreshed_size rect (m_windowSize q) in
        let sent :=
          if (Width size =? 0) || (Height size =? 0)
          then (640, 480)
          else (Width size, Height size) in
        nonneg_sized size ->
        snd (UpdateVideoSize rect q) =
          [EngineOnWindowUpdate (fst sent) (snd sent)]
        /\ (forall w h,
              _textureRegistry q <> None ->
              window_updates (snd (ObtainDescriptorCallback w h rect q)) =
                [sent])).
Proof.
  intros sized ranged. split; [now apply run_window_updates|].
  intros q rect size sent refreshed. subst sent.
  rewrite <- (display_size_nonneg refreshed). subst size. split.
  - now rewrite UpdateVideoSize_eq.
  - intros w h registrar. rewrite ObtainDescriptorCallback_eq. cbn zeta.
    destruct (media.UpdateSurfaceDescriptor _ _ _ _) as [[e' d'] called].
    destruct (display_size _) as [dw dh].
    destruct called, (_textureRegistry q); try reflexivity; contradiction.
Qed.

(** X10.  In a window whose rectangle can be read and has sides between 1
    and [2^24 - 1], a frame request resizes the engine to exactly the
    window's width and height, whatever size was stored before and
    whatever buffer size the request asks for. *)
Theorem engine_is_resized_to_the_window p (w h : Z) (rect : RECT) :
  0 < right rect - left rect < 2 ^ 24 ->
  0 < bottom rect - top rect < 2 ^ 24 ->
  _textureRegistry p <> None ->
  window_updates (snd (ObtainDescriptorCallback w h (Some rect) p)) =
    [(right rect - left rect, bottom rect - top rect)]
  /\ match player_after (ObtainDescriptorCallback w h (Some rect) p) with
     | Some p' =>
         m_windowSize p' =
           {| Width := right rect - left rect;
              Height := bottom rect - top rect |}
     | None => False
     end.
Proof.
  intros wide high registrar.
  rewrite ObtainDescriptorCallback_eq. cbn zeta.
  destruct (media.UpdateSurfaceDescriptor _ _ _ _) as [[e' d'] called].
  assert (refreshed_size (Some rect) (m_windowSize p) =
          {| Width := right rect - left rect;
             Height := bottom rect - top rect |}) as ->.
  { cbn. now rewrite !int32_cast_small, !float_of_int_exact by lia. }
  rewrite display_size_stored by (cbn; lia).
  destruct called, (_textureRegistry p); try contradiction;
    split; reflexivity.
Qed.

Lemma int64_cast_small (z : Z) :
  - 2 ^ 63 <= z < 2 ^ 63 -> int64_cast z = z.
Proof. intros range. unfold int64_cast. rewrite Z.mod_small; lia. Qed.

Lemma int32_cast_of_uint32 (z : Z) :
  0 <= z < 2 ^ 32 ->
  int32_cast z = if z <? 2 ^ 31 then z else z - 2 ^ 32.
Proof.
  intros range. unfold int32_cast.
  destruct (Z.ltb_spec z (2 ^ 31)).
  - rewrite Z.mod_small; lia.
  - replace (z + 2 ^ 31) with (z - 2 ^ 31 + 1 * 2 ^ 32) by lia.
    rewrite Z.mod_add by lia. rewrite Z.mod_small; lia.
Qed.

(** The events one call delivers. *)
Lemma step_events (i : Input) p :
  sink_events (snd (step i p)) =
  match _eventSink p with
  | None => []
  | Some _ =>
      let e := m_mediaEngineWrapper p in
      match i with
      | FromEngine onInitialized =>
          if isInitialized p then []
          else [initialized_event (media.SeekTo 0 e)]
      | FromEngine (onBufferingStateChanged media.HAVE_NOTHING) =>
          [buffering_event true;
           bufferingUpdate_event
             (map range_value (media.GetBufferedRanges e))]
      | FromEngine (onBufferingStateChanged media.HAVE_ENOUGH) =>
          (if isInitialized p then [] else [initialized_event e])
          ++ [buffering_event false]
      | FromEngine onPlaybackEnded => [completed_event]
      | _ => []
      end
  end.
Proof.
  destruct i as [[ | error hr | [|] | ] | | | w h rect | | | | | | | ];
    cbn [step callback].
  - rewrite OnMediaInitialized_eq. unfold emit. cbn [snd].
    now destruct (isInitialized p), (_eventSink p).
  - now destruct (_eventSink p).
  - rewrite OnMediaStateChange_nothing_eq. unfold emit. cbn [snd].
    now destruct (_eventSink p).
  - rewrite OnMediaStateChange_enough_eq. unfold emit. cbn [snd].
    now destruct (isInitialized p), (_eventSink p).
  - rewrite OnPlaybackEnded_eq. unfold emit. cbn [snd].
    now destruct (_eventSink p).
  - now destruct (_eventSink p).
  - now destruct (_eventSink p).
  - unfold bind. rewrite ObtainDescriptorCallback_eq.
    destruct (media.UpdateSurfaceDescriptor _ _ _ _) as [[e' d'] called].
    now destruct called, (_textureRegistry p), (_eventSink p).
  - now destruct (_eventSink p).
  - rewrite Dispose_eq. now destruct (isInitialized p), (_eventSink p).
  - now destruct (_eventSink p).
  - now destruct (_eventSink p).
  - now destruct (_eventSink p).
  - now destruct (_eventSink p).
  - now destruct (_eventSink p).
Qed.

(** X11.  An initialized event carries what the engine reports when the
    event is built.  The initialized events of a call are: for
    [onInitialized] on a session with a listener that is not initialized,
    the one event built from the engine as it is after the seek to 0; for
    a buffering callback other than [HAVE_NOTHING] on such a session, the
    one event built from the engine as it is; none in every other case.
    The event's "duration" is the engine's duration as [int64_t], the
    duration itself below [2^63]; its "width" and "height" are the native
    size as [int32_t], so a side below [2^31] is reported as it is and a
    larger [uint32_t] side comes out negative, lowered by [2^32]. *)
Theorem initialized_event_reports_the_engine p :
  (forall i,
      filter (is_event "initialized") (sink_events (snd (step i p))) =
      match _eventSink p with
      | None => []
      | Some _ =>
          if isInitialized p then []
          else
            match i with
            | FromEngine onInitialized =>
                [initialized_event
                   (media.SeekTo 0 (m_mediaEngineWrapper p))]
            | FromEngine (onBufferingStateChanged media.HAVE_ENOUGH) =>
                [initialized_event (m_mediaEngineWrapper p)]
            | _ => []
            end
      end)
  /\ (forall e : E,
        event_name (initialized_event e) = Some "initialized"
        /\ (0 <= media.GetDuration e < 2 ^ 63 ->
            field "duration" (initialized_event e) =
              Some (EInt64 (media.GetDuration e)))
        /\ (forall w h,
              media.GetNativeVideoSize e = (w, h) ->
              0 <= w < 2 ^ 32 -> 0 <= h < 2 ^ 32 ->
              field "width" (initialized_event e) =
                Some (EInt32 (if w <? 2 ^ 31 then w else w - 2 ^ 32))
              /\ field "height" (initialized_event e) =
                   Some (EInt32 (if h <? 2 ^ 31 then h else h - 2 ^ 32)))).
Proof.
  split.
  - intros i. rewrite step_events.
    destruct (_eventSink p); [|reflexivity]. cbn zeta.
    destruct i as [[ | error hr | [|] | ] | | | w h rect | | | | | | | ];
      destruct (isInitialized p); reflexivity.
  - intros e. split; [reflexivity|]. split.
    + intros range. cbn. now rewrite int64_cast_small by lia.
    + intros w h size wide high. cbn. rewrite size. cbn.
      now rewrite !int32_cast_of_uint32 by lia.
Qed.

(** X12.  Every event a call delivers is a record whose "event" field is
    one of the five names of the channel; no call delivers anything
    else. *)
Theorem delivered_events_are_named (i : Input) p :
  Forall (fun event =>
            exists n, event_name event = Some n /\ In n event_names)
         (sink_events (snd (step i p))).
Proof.
  rewrite step_events. destruct (_eventSink p); [|constructor].
  cbn zeta.
  destruct i as [[ | error hr | [|] | ] | | | w h rect | | | | | | | ];
    try constructor.
  - destruct (isInitialized p); repeat constructor.
    exists "initialized". split; [reflexivity|]. cbn. repeat (first [left; reflexivity | right]).
  - exists "bufferingStart". split; [reflexivity|]. cbn. repeat (first [left; reflexivity | right]).
  - repeat constructor. exists "bufferingUpdate". split; [reflexivity|]. cbn. repeat (first [left; reflexivity | right]).
  - destruct (isInitialized p); cbn; repeat constructor.
    + exists "bufferingEnd". split; [reflexivity|]. cbn. repeat (first [left; reflexivity | right]).
    + exists "initialized". split; [reflexivity|]. cbn. repeat (first [left; reflexivity | right]).
    + exists "bufferingEnd". split; [reflexivity|]. cbn. repeat (first [left; reflexivity | right]).
  - exists "completed". split; [reflexivity|]. cbn. repeat (first [left; reflexivity | right]).
  - constructor.
Qed.

(** How many events of each kind one call delivers. *)
Lemma step_counts (i : Input) p :
  let attached :=
    match _eventSink p with Some _ => 1%nat | None => 0%nat end in
  count_event "completed" (snd (step i p)) =
    (if is_playback_ended i then attached else 0%nat)
  /\ count_event "bufferingStart" (snd (step i p)) =
       (if is_buffering true i then attached else 0%nat)
  /\ count_event "bufferingUpdate" (snd (step i p)) =
       (if is_buffering true i then attached else 0%nat)
  /\ count_event "bufferingEnd" (snd (step i p)) =
       (if is_buffering false i then attached else 0%nat).
Proof.
  unfold count_event. rewrite step_events. cbn zeta.
  destruct (_eventSink p);
    destruct i as [[ | error hr | [|] | ] | | | w h rect | | | | | | | ];
    try destruct (isInitialized p); repeat split.
Qed.

Lemma count_inputs_cons (f : Input -> bool) (i : Input)
  (rest : list Input) :
  count_inputs f (i :: rest) =
  ((if f i then 1 else 0) + count_inputs f rest)%nat.
Proof. unfold count_inputs. cbn. now destruct (f i). Qed.

(** X13.  A session never delivers more events than it was given reasons
    for: at most one completed per [onPlaybackEnded]; at most one
    bufferingStart and one bufferingUpdate per [HAVE_NOTHING] buffering
    callback; at most one bufferingEnd per buffering callback with another
    state.  No other call delivers any of these. *)
Theorem events_are_bounded_by_callbacks (inputs : list Input) p :
  let tr := snd (run inputs p) in
  (count_event "completed" tr <= count_inputs is_playback_ended inputs)%nat
  /\ (count_event "bufferingStart" tr
      <= count_inputs (is_buffering true) inputs)%nat
  /\ (count_event "bufferingUpdate" tr
      <= count_inputs (is_buffering true) inputs)%nat
  /\ (count_event "bufferingEnd" tr
      <= count_inputs (is_buffering false) inputs)%nat.
Proof.
  cbn zeta. revert p. induction inputs as [|i rest IH]; intro p.
  - cbn. lia.
  - rewrite run_cons, !count_event_app, !count_inputs_cons.
    destruct (step_counts i p) as (c & s & u & e). cbn zeta in *.
    rewrite c, s, u, e.
    assert (forall n,
               (count_event n
                  match player_after (step i p) with
                  | Some p' => snd (run rest p')
                  | None => []
                  end
                <= match player_after (step i p) with
                   | Some p' => count_event n (snd (run rest p'))
                   | None => 0
                   end)%nat) as tail
        by (intro n; destruct (player_after (step i p)); cbn; lia).
    pose proof (tail "completed") as tc.
    pose proof (tail "bufferingStart") as ts.
    pose proof (tail "bufferingUpdate") as tu.
    pose proof (tail "bufferingEnd") as te.
    destruct (player_after (step i p)) as [p1|].
    + destruct (IH p1) as (ic & ib & iu & ie).
      destruct (_eventSink p), (is_playback_ended i),
        (is_buffering true i), (is_buffering false i); lia.
    + destruct (_eventSink p), (is_playback_ended i),
        (is_buffering true i), (is_buffering false i); lia.
Qed.

Lemma run_counts_while_listening (inputs : list Input) p :
  _eventSink p <> None ->
  _textureRegistry p <> None ->
  existsb is_Cancel inputs = false ->
  let tr := snd (run inputs p) in
  count_event "completed" tr = count_inputs is_playback_ended inputs
  /\ count_event "bufferingStart" tr = count_inputs (is_buffering true) inputs
  /\ count_event "bufferingUpdate" tr = count_inputs (is_buffering true) inputs
  /\ count_event "bufferingEnd" tr = count_inputs (is_buffering false) inputs.
Proof.
  cbn zeta. revert p.
  induction inputs as [|i rest IH]; intros p listener registrar quiet.
  - repeat split.
  - cbn [existsb] in quiet. apply orb_false_elim in quiet as [qi qrest].
    rewrite run_cons, !count_event_app, !count_inputs_cons.
    destruct (step_counts i p) as (c & s & u & e). cbn zeta in *.
    rewrite c, s, u, e.
    pose proof (step_frame i p) as frame.
    pose proof (@step_crash i p) as crashes.
    destruct (player_after (step i p)) as [p1|].
    + destruct frame as (_ & sink & registry & _).
      destruct (IH p1) as (ic & ib & iu & ie); [| |exact qrest|].
      * rewrite sink. destruct i; try exact listener; discriminate.
      * rewrite registry. destruct i; try exact registrar; discriminate.
      * rewrite ic, ib, iu, ie.
        destruct (_eventSink p); [|contradiction].
        repeat split; reflexivity.
    + destruct (crashes eq_refl) as [_ none]. contradiction.
Qed.

(** X14.  While a listener stays attached nothing is lost: on a session
    that has a listener and a texture registrar and is never sent the
    channel's cancel, the events delivered are exactly one completed per
    [onPlaybackEnded], one bufferingStart and one bufferingUpdate per
    [HAVE_NOTHING] buffering callback, and one bufferingEnd per buffering
    callback with another state, before and after initialization and
    [Dispose] alike. *)
Theorem events_match_callbacks_while_listening (inputs : list Input) p :
  _eventSink p <> None ->
  _textureRegistry p <> None ->
  existsb is_Cancel inputs = false ->
  let tr := snd (run inputs p) in
  count_event "completed" tr = count_inputs is_playback_ended inputs
  /\ count_event "bufferingStart" tr = count_inputs (is_buffering true) inputs
  /\ count_event "bufferingUpdate" tr = count_inputs (is_buffering true) inputs
  /\ count_event "bufferingEnd" tr = count_inputs (is_buffering false) inputs.
Proof. apply run_counts_while_listening. Qed.




(** X16.  [Init] can be repeated: the last call decides.  A second [Init]
    replaces the registrar, the texture id and the channel of the first,
    so calling it twice with the same arguments is the same as calling it
    once; [GetTextureId] then returns the id given.  [Init] sends nothing
    and leaves the listener, the flags, the engine, the descriptor and
    the window size alone. *)
Theorem Init_last_call_decides p (r1 r2 : TextureRegistrar) (id1 id2 : Z) :
  run [HostInit r1 id1; HostInit r2 id2] p = run [HostInit r2 id2] p
  /\ bind (Init r2 id2) (fun _ => GetTextureId) p =
       (Ok id2
           (with_textureRegistry (Some r2)
              (with_eventChannel (Some (channel_of id2))
                 (with_textureId id2 p))),
        [])
  /\ run [HostInit r2 id2] p =
       (Ok tt
           (with_textureRegistry (Some r2)
              (with_eventChannel (Some (channel_of id2))
                 (with_textureId id2 p))),
        []).
Proof. open_player p. repeat split. Qed.

End Members.

(** ** Instances of the further properties, on the stub engine *)

(** X6 on the new session, which has no registrar yet: the stub signals a
    frame, and the request crashes after the engine's surface update. *)
Lemma frame_request_before_Init_witness :
  ObtainDescriptorCallback 1920 1080 None session0 =
    (Crash, [EngineUpdateSurfaceDescriptor 1920 1080]).
Proof. exact (frame_request_before_Init session0 1920 1080 None eq_refl). Defined.

(** X7 on a session with two frame requests, one of them after
    [Dispose]. *)
Lemma frames_are_announced_under_the_Init_texture_witness :
  Forall (fun n => n = (1%nat, 5))
    (notifications
       (snd (run (HostInit 1 5 ::
                  [Listen 7; FrameRequest 1920 1080 None; HostDispose;
                   FrameRequest 640 480 (Some rect_800x600)])
                 session0))).
Proof.
  apply (frames_are_announced_under_the_Init_texture session0).
  reflexivity.
Defined.

(** X8 on the stub, whose media time is the last seek target. *)
Lemma Play_resumes_from_media_time_witness :
  Play listened0 =
    (Ok tt (with_engine (media.StartPlayingFrom 0 stub0) listened0),
     [EngineStartPlayingFrom 0])
  /\ run [HostSeekTo 1234; HostPlay] listened0 =
       (Ok tt
           (with_engine
              (media.StartPlayingFrom 1234 (media.SeekTo 1234 stub0))
              listened0),
        [EngineSeekTo 1234; EngineStartPlayingFrom 1234]).
Proof.
  exact (Play_resumes_from_media_time listened0 1234
           (fun t e => eq_refl)).
Defined.

(** X9 on a new session whose window first has no width and then is
    800x600. *)
Lemma engine_is_never_resized_to_zero_witness :
  window_updates
    (snd (run [HostInit 1 5;
               FrameRequest 1920 1080 (Some rect_degenerate);
               FrameRequest 1920 1080 (Some rect_800x600)]
              session0)) = [(640, 480); (800, 600)]
  /\ Forall (fun wh => 1 <= fst wh <= 2 ^ 31 /\ 1 <= snd wh <= 2 ^ 31)
       (window_updates
          (snd (run [HostInit 1 5;
                     FrameRequest 1920 1080 (Some rect_degenerate);
                     FrameRequest 1920 1080 (Some rect_800x600)]
                    session0))).
Proof.
  split; [reflexivity|].
  apply (@engine_is_never_resized_to_zero _ _
           [HostInit 1 5;
            FrameRequest 1920 1080 (Some rect_degenerate);
            FrameRequest 1920 1080 (Some rect_800x600)] session0).
  - split; cbn; lia.
  - repeat constructor; cbn; lia.
Defined.

(** X10 on the 800x600 window. *)
Lemma engine_is_resized_to_the_window_witness :
  window_updates
    (snd (ObtainDescriptorCallback 1920 1080 (Some rect_800x600) listened0)) =
    [(800, 600)]
  /\ match
       player_after
         (ObtainDescriptorCallback 1920 1080 (Some rect_800x600) listened0)
     with
     | Some p' => m_windowSize p' = {| Width := 800; Height := 600 |}
     | None => False
     end.
Proof.
  apply (engine_is_resized_to_the_window listened0 1920 1080 rect_800x600).
  - cbn. lia.
  - cbn. lia.
  - discriminate.
Defined.

(** X14 on a session that buffers, becomes ready, is disposed and then
    ends playback, with listener 7 attached throughout. *)
Lemma events_match_callbacks_while_listening_witness :
  count_event "completed"
    (snd (run [FromEngine (onBufferingStateChanged media.HAVE_NOTHING);
               FromEngine (onBufferingStateChanged media.HAVE_ENOUGH);
               HostDispose; FromEngine onPlaybackEnded] listened0)) = 1%nat
  /\ count_event "bufferingStart"
       (snd (run [FromEngine (onBufferingStateChanged media.HAVE_NOTHING);
                  FromEngine (onBufferingStateChanged media.HAVE_ENOUGH);
                  HostDispose; FromEngine onPlaybackEnded] listened0)) = 1%nat
  /\ count_event "bufferingUpdate"
       (snd (run [FromEngine (onBufferingStateChanged media.HAVE_NOTHING);
                  FromEngine (onBufferingStateChanged media.HAVE_ENOUGH);
                  HostDispose; FromEngine onPlaybackEnded] listened0)) = 1%nat
  /\ count_event "bufferingEnd"
       (snd (run [FromEngine (onBufferingStateChanged media.HAVE_NOTHING);
                  FromEngine (onBufferingStateChanged media.HAVE_ENOUGH);
                  HostDispose; FromEngine onPlaybackEnded] listened0)) = 1%nat.
Proof.
  apply (events_match_callbacks_while_listening
           [FromEngine (onBufferingStateChanged media.HAVE_NOTHING);
            FromEngine (onBufferingStateChanged media.HAVE_ENOUGH);
            HostDispose; FromEngine onPlaybackEnded] listened0).
  - discriminate.
  - discriminate.
  - reflexivity.
Defined.

